(** * light/postprocess.go: CHT and BloomTrie section indexers

    A shallow embedding of the post-processing backends of the light client
    (package [light]): the section root store ([GetChtRoot], [StoreChtRoot],
    [GetBloomTrieRoot], [StoreBloomTrieRoot]), the two chain indexer backends
    ([ChtIndexerBackend], [BloomTrieIndexerBackend]) with their
    [Reset]/[Process]/[Commit] cycle, and the table of trusted checkpoints.

    Conventions.
    - A Go [uint64] is a [Z] in the range [0, 2^64); arithmetic that can leave
      the range is wrapped with [u64].
    - A [[]byte] is a [list byte]; a [common.Hash] is a vector of 32 bytes.
    - A Go [error] value is an [option error], [None] standing for [nil].
    - The packages the file imports (ethdb, trie, rawdb, bitutil, rlp, types,
      params) are interfaces of the development: type classes whose methods
      have the Go signatures. *)

From Stdlib Require Import ZArith Lia.
From Stdlib Require Import Strings.Ascii Strings.String Strings.Byte.
From stdpp Require Import base option list vector countable gmap strings.

Local Open Scope Z_scope.

(** ** Machine integers *)

Definition u64 (z : Z) : Z := z mod 2 ^ 64.
Definition u16 (z : Z) : Z := z mod 2 ^ 16.

(** The Go conversion [byte(v)]: the low eight bits. *)
Definition byte_of_Z (z : Z) : byte :=
  match Byte.of_N (Z.to_N (z mod 256)) with
  | Some b => b
  | None => x00
  end.

Definition Z_of_byte (b : byte) : Z := Z.of_N (Byte.to_N b).

#[global] Instance byte_eq_dec : EqDecision byte := Byte.byte_eq_dec.
#[global] Instance byte_countable : Countable byte :=
  inj_countable Byte.to_N Byte.of_N Byte.of_to_N.

(** ** encoding/binary, big endian *)

Module BigEndian.

(** [binary.BigEndian.PutUint64(b, v)] on an 8-byte buffer. *)
Definition PutUint64 (v : Z) : list byte :=
  [ byte_of_Z (Z.shiftr v 56); byte_of_Z (Z.shiftr v 48);
    byte_of_Z (Z.shiftr v 40); byte_of_Z (Z.shiftr v 32);
    byte_of_Z (Z.shiftr v 24); byte_of_Z (Z.shiftr v 16);
    byte_of_Z (Z.shiftr v 8); byte_of_Z v ].

(** [binary.BigEndian.PutUint16(b, v)] on a 2-byte buffer. *)
Definition PutUint16 (v : Z) : list byte :=
  [ byte_of_Z (Z.shiftr v 8); byte_of_Z v ].

(** The readers, used to state that the writers lose nothing. *)
Definition Uint (b : list byte) : Z :=
  fold_left (fun acc x => acc * 256 + Z_of_byte x) b 0.

End BigEndian.

(** ** common.Hash *)

(** Modelled from the spec: package [common] is outside the indexed file; a
    hash ([common.Hash]) is a 32-byte value, an array of [HashLength] bytes. *)
Definition HashLength : nat := 32.

Definition Hash : Type := vec byte HashLength.

(** The zero value [common.Hash{}]. *)
Definition zeroHash : Hash := vreplicate HashLength x00.

(** [h.Bytes()] *)
Definition Bytes (h : Hash) : list byte := vec_to_list h.

(** Modelled from the spec: [common.BytesToHash] (through [SetBytes]) is
    declared in package [common], outside the indexed file; it turns the bytes
    read from the store into a 32-byte root, and no bytes into the zero value.
    A longer input is cropped from the left, a shorter one is copied to the
    right end of the zeroed array. *)
Definition SetBytes (b : list byte) : list byte :=
  let b' := drop (length b - HashLength)%nat b in
  replicate (HashLength - length b')%nat x00 ++ b'.

(** [common.BytesToHash(b)] *)
Definition BytesToHash (b : list byte) : Hash :=
  fun_to_vec (fun i : fin HashLength => nth (fin_to_nat i) (SetBytes b) x00).

(** Hashes are map keys: they are counted through their bytes. *)
#[global] Program Instance hash_countable : Countable Hash | 0 :=
  inj_countable' Bytes BytesToHash _.
Next Obligation.
  intros h. apply vec_to_list_inj2. apply list_eq. intros i.
  assert (HS : SetBytes (Bytes h) = Bytes h).
  { unfold SetBytes, Bytes. rewrite !length_vec_to_list, Nat.sub_diag, drop_0.
    rewrite length_vec_to_list, Nat.sub_diag. reflexivity. }
  destruct (decide (i < HashLength)%nat) as [Hi|Hi].
  - set (j := nat_to_fin Hi).
    assert (Hj : fin_to_nat j = i) by apply fin_to_nat_to_fin.
    rewrite <- Hj. unfold BytesToHash.
    rewrite (proj1 (vlookup_lookup _ j _) (lookup_fun_to_vec _ j)).
    rewrite HS.
    destruct (nth_lookup_or_length (Bytes h) (fin_to_nat j) x00) as [E|E];
      [symmetry; exact E|].
    unfold Bytes in E. rewrite length_vec_to_list, Hj in E. lia.
  - rewrite !lookup_ge_None_2; [reflexivity | |];
      rewrite length_vec_to_list; lia.
Qed.

(** ** Errors, panics and the state monad of the backends *)

Definition error : Type := string.

(** What a call can end in: a normal return, an early [return err] with a
    non-nil error, or a Go panic. *)
Inductive res (A : Type) : Type :=
  | Ret (a : A)
  | Fail (e : error)
  | Panic.
Arguments Ret {A} a.
Arguments Fail {A} e.
Arguments Panic {A}.

(** A computation over a mutable state [S]; the state is returned in every
    case, since a mutation made before a panic or an error stays made. *)
Definition M (S A : Type) : Type := S -> res A * S.

Definition fail {S A} (e : error) : M S A := fun s => (Fail e, s).
Definition panic {S A} : M S A := fun s => (Panic, s).
Definition get {S} : M S S := fun s => (Ret s, s).
Definition put {S} (s : S) : M S unit := fun _ => (Ret tt, s).

#[global] Instance M_ret {S} : MRet (M S) := fun A a s => (Ret a, s).
#[global] Instance M_bind {S} : MBind (M S) := fun A B k m s =>
  match m s with
  | (Ret a, s') => k a s'
  | (Fail e, s') => (Fail e, s')
  | (Panic, s') => (Panic, s')
  end.

(** [return err] for an [err] that may be nil. *)
Definition return_err {S} (err : option error) : M S unit :=
  match err with
  | Some e => fail e
  | None => mret tt
  end.

(** The informational log lines the backends emit.  The line of the bloom
    trie reports the quotient of the two sizes it is given here. *)
Inductive LogEvent : Type :=
  | LogStoringCHT (section : Z) (head root : Hash)
  | LogStoringBloomTrie (section : Z) (head root : Hash) (compSize decompSize : Z).

(** ** The imported packages *)

(** [ethdb.Database]: [Get(key) ([]byte, error)] and [Put(key, value) error]
    over a store whose state is [D]. *)
Class Database (D : Type) : Type := {
  Get : D -> list byte -> list byte * option error;
  Put : D -> list byte -> list byte -> D * option error
}.

(** Package [trie]: tries of type [T] over a node database of state [TDB]
    backed by a table of the store [D].
    - [trie_NewDatabase prefix] is
      [trie.NewDatabase(ethdb.NewTable(db, prefix))];
    - [trie_New root triedb] is [trie.New], which yields a trie or an error
      (the node database reads through to the store);
    - [trie_Update], [trie_Delete] are the methods [Update] and [Delete] of a
      trie;
    - [trie_Commit t triedb] is [t.Commit(nil)], returning [(root, err)];
    - [triedb_Commit triedb root] is [triedb.Commit(root, false)], which
      flushes nodes to the backing store and returns an error value. *)
Class TrieOps (T TDB D : Type) : Type := {
  trie_NewDatabase : string -> TDB;
  trie_New : Hash -> TDB -> D -> T + error;
  trie_Update : T -> list byte -> list byte -> T;
  trie_Delete : T -> list byte -> T;
  trie_Commit : T -> TDB -> (T * TDB) * (Hash * option error);
  triedb_Commit : TDB -> Hash -> D -> (TDB * D) * option error
}.

(** Package [rawdb]: [ReadTd(db, hash, number) *big.Int] (nil when absent) and
    [ReadBloomBits(db, bit, section, head) ([]byte, error)]. *)
Class RawDB (D : Type) : Type := {
  ReadTd : D -> Hash -> Z -> option Z;
  ReadBloomBits : D -> Z -> Z -> Hash -> list byte * option error
}.

(** Package [bitutil]: [CompressBytes(data)] and
    [DecompressBytes(data, target)]. *)
Class Bitutil : Type := {
  CompressBytes : list byte -> list byte;
  DecompressBytes : list byte -> Z -> list byte * option error
}.

(** [types.Header]: the two observations the backends make of a header,
    [header.Hash()] and [header.Number] (a [*big.Int], set on every header
    that reaches an indexer). *)
Class HeaderOps (Header : Type) : Type := {
  Header_Hash : Header -> Hash;
  Header_Number : Header -> Z
}.

(** The method [Uint64] of [big.Int]: the low 64 bits of the absolute value. *)
Definition BigInt_Uint64 (x : Z) : Z := u64 (Z.abs x).

(** Package [params]: the genesis hashes that key the checkpoint table. *)
Class Params : Type := {
  MainnetGenesisHash : Hash;
  TestnetGenesisHash : Hash
}.

(** Modelled from the spec: [types.BloomBitLength] is declared in package
    [types], outside the indexed file; the bit positions of the bloom filter
    are 0..2047. *)
Definition BloomBitLength : Z := 2048.

(** ** Constants of the file *)

Definition CHTFrequencyClient : Z := 32768.
Definition CHTFrequencyServer : Z := 4096.
Definition HelperTrieConfirmations : Z := 2048.
Definition HelperTrieProcessConfirmations : Z := 256.

Definition BloomTrieFrequency : Z := 32768.
Definition ethBloomBitsSection : Z := 4096.
Definition ethBloomBitsConfirmations : Z := 256.

Definition ErrNoTrustedCht : error := "No trusted canonical hash trie".
Definition ErrNoTrustedBloomTrie : error := "No trusted bloom trie".
Definition ErrNoHeader : error := "Header not found".
Definition chtPrefix : list byte := String.list_byte_of_string "chtRoot-".
Definition ChtTablePrefix : string := "cht-".
Definition bloomTriePrefix : list byte := String.list_byte_of_string "bltRoot-".
Definition BloomTrieTablePrefix : string := "blt-".

(** Package [rlp]: [rlp.EncodeToBytes] at the type [ChtNode]. *)
Record ChtNode : Type := mkChtNode {
  ChtNode_Hash : Hash;
  ChtNode_Td : Z
}.

Class RLP : Type := {
  EncodeToBytes : ChtNode -> list byte * option error
}.

(** ** Slices *)

(** [s[i]] with the bounds check of the language: [None] is the run-time
    panic for an index out of range. *)
Definition index {A} (s : list A) (i : Z) : option A :=
  if (0 <=? i) && (i <? Z.of_nat (length s)) then s !! Z.to_nat i else None.

(** ** Trusted checkpoints *)

(** Modelled from the spec: [common.HexToHash] is declared in package
    [common], outside the indexed file; the checkpoint fields are 32-byte
    hashes written as 64 hexadecimal digits.  The digits are decoded in pairs
    (after an optional [0x] and after padding an odd length with a leading
    zero), decoding stops at the first character that is no digit, and the
    bytes go through [BytesToHash]. *)
Definition hex_digit (a : ascii) : option Z :=
  let n := Z.of_N (Ascii.N_of_ascii a) in
  if (48 <=? n) && (n <=? 57) then Some (n - 48)
  else if (97 <=? n) && (n <=? 102) then Some (n - 87)
  else if (65 <=? n) && (n <=? 70) then Some (n - 55)
  else None.

Fixpoint Hex2Bytes (s : string) : list byte :=
  match s with
  | String a (String b rest) =>
      match hex_digit a, hex_digit b with
      | Some x, Some y => byte_of_Z (16 * x + y) :: Hex2Bytes rest
      | _, _ => []
      end
  | _ => []
  end.

Definition FromHex (s : string) : list byte :=
  let s := match s with
           | String "0" (String "x" rest) | String "0" (String "X" rest) => rest
           | _ => s
           end in
  let s := if Nat.odd (String.length s) then String "0" s else s in
  Hex2Bytes s.

Definition HexToHash (s : string) : Hash := BytesToHash (FromHex s).

Record trustedCheckpoint : Type := mkTrustedCheckpoint {
  name : string;
  sectionIdx : Z;
  sectionHead : Hash;
  chtRoot : Hash;
  bloomTrieRoot : Hash
}.

Definition mainnetCheckpoint : trustedCheckpoint := {|
  name := "mainnet";
  sectionIdx := 174;
  sectionHead := HexToHash "a3ef48cd8f1c3a08419f0237fc7763491fe89497b3144b17adf87c1c43664613";
  chtRoot := HexToHash "dcbeed9f4dea1b3cb75601bb27c51b9960c28e5850275402ac49a150a667296e";
  bloomTrieRoot := HexToHash "6b7497a4a03e33870a2383cb6f5e70570f12b1bf5699063baf8c71d02ca90b02"
|}.

Definition ropstenCheckpoint : trustedCheckpoint := {|
  name := "ropsten";
  sectionIdx := 102;
  sectionHead := HexToHash "9017ab08465cb2b2dee035ee5b817bbd7fa28e2c8d2cd903e0aed1cccb249e89";
  chtRoot := HexToHash "f61c10a7a787a5ef15f0ae1ae6c13c64331e57e79d0466d2bd9b0c06833fe956";
  bloomTrieRoot := HexToHash "69f2ad19aa46d5213a90137b3d2c9bff8a7c9483f7170f0125096ff450c9a873"
|}.

(** The map literal: the entries are inserted in the order they are written. *)
Definition trustedCheckpoints `{!Params} : gmap Hash trustedCheckpoint :=
  <[TestnetGenesisHash := ropstenCheckpoint]>
    (<[MainnetGenesisHash := mainnetCheckpoint]> ∅).

(** Modelled from the spec: the lookup of the checkpoint of a chain is made
    by the bootstrap code, outside the indexed file; it is the map index
    expression in its two-result form, [cp, ok := trustedCheckpoints[genesis]],
    which tells an unknown genesis ("not found") from a checkpoint. *)
Definition lookupCheckpoint `{!Params} (genesis : Hash) : option trustedCheckpoint :=
  trustedCheckpoints !! genesis.

(** ** The section root store *)

Section RootStore.
Context {D : Type} `{!Database D}.

Definition chtRootKey (sectionIdx : Z) (sectionHead : Hash) : list byte :=
  let encNumber := BigEndian.PutUint64 sectionIdx in
  (chtPrefix ++ encNumber) ++ Bytes sectionHead.

Definition GetChtRoot (db : D) (sectionIdx : Z) (sectionHead : Hash) : Hash :=
  let '(data, _) := Get db (chtRootKey sectionIdx sectionHead) in
  BytesToHash data.

Definition GetChtV2Root (db : D) (sectionIdx : Z) (sectionHead : Hash) : Hash :=
  GetChtRoot db
    (u64 (u64 (u64 (sectionIdx + 1) * (CHTFrequencyClient / CHTFrequencyServer)) - 1))
    sectionHead.

Definition StoreChtRoot (db : D) (sectionIdx : Z) (sectionHead root : Hash) : D :=
  let '(db', _) := Put db (chtRootKey sectionIdx sectionHead) (Bytes root) in
  db'.

Definition bloomTrieRootKey (sectionIdx : Z) (sectionHead : Hash) : list byte :=
  let encNumber := BigEndian.PutUint64 sectionIdx in
  (bloomTriePrefix ++ encNumber) ++ Bytes sectionHead.

Definition GetBloomTrieRoot (db : D) (sectionIdx : Z) (sectionHead : Hash) : Hash :=
  let '(data, _) := Get db (bloomTrieRootKey sectionIdx sectionHead) in
  BytesToHash data.

Definition StoreBloomTrieRoot (db : D) (sectionIdx : Z) (sectionHead root : Hash) : D :=
  let '(db', _) := Put db (bloomTrieRootKey sectionIdx sectionHead) (Bytes root) in
  db'.

End RootStore.

(** ** The indexer backends *)

(** What a backend method runs against: the backend's own fields, the store
    behind its [diskdb] handle, and the log. *)
Record World (B D : Type) : Type := mkWorld {
  backend : B;
  diskdb : D;
  logs : list LogEvent
}.
Arguments mkWorld {B D} backend diskdb logs.
Arguments backend {B D} w.
Arguments diskdb {B D} w.
Arguments logs {B D} w.

Definition set_backend {B D} (w : World B D) (b : B) : World B D :=
  mkWorld b (diskdb w) (logs w).

(** The arguments [core.NewChainIndexer] is called with. *)
Record ChainIndexer (B : Type) : Type := mkChainIndexer {
  ci_indexTable : string;
  ci_backend : B;
  ci_sectionSize : Z;
  ci_confirmsReq : Z;
  ci_throttlingMs : Z;
  ci_kind : string
}.
Arguments mkChainIndexer {B}.
Arguments ci_backend {B}.
Arguments ci_sectionSize {B}.
Arguments ci_confirmsReq {B}.

Module ChtIndexerBackend.

(** The fields of the struct but [diskdb]: the store behind that handle is
    the [diskdb] of the [World].  [trie] is a pointer, nil until [Reset]. *)
Record t (T TDB : Type) : Type := mk {
  triedb : TDB;
  section : Z;
  sectionSize : Z;
  lastHash : Hash;
  trie : option T
}.
Arguments mk {T TDB}.
Arguments triedb {T TDB}.
Arguments section {T TDB}.
Arguments sectionSize {T TDB}.
Arguments lastHash {T TDB}.
Arguments trie {T TDB}.

Section Methods.
Context {D T TDB Header : Type}.
Context `{!Database D, !TrieOps T TDB D, !RawDB D, !RLP, !HeaderOps Header}.

Definition set_trie (c : t T TDB) (tr : option T) : t T TDB :=
  mk (triedb c) (section c) (sectionSize c) (lastHash c) tr.
Definition set_section (c : t T TDB) (s : Z) : t T TDB :=
  mk (triedb c) s (sectionSize c) (lastHash c) (trie c).
Definition set_lastHash (c : t T TDB) (h : Hash) : t T TDB :=
  mk (triedb c) (section c) (sectionSize c) h (trie c).
Definition set_triedb (c : t T TDB) (tdb : TDB) : t T TDB :=
  mk tdb (section c) (sectionSize c) (lastHash c) (trie c).

(** The backend [NewChtIndexer] builds, and the indexer it is handed to. *)
Definition NewChtIndexer (clientMode : bool) : ChainIndexer (t T TDB) :=
  let '(sectionSize, confirmReq) :=
    if clientMode
    then (CHTFrequencyClient, HelperTrieConfirmations)
    else (CHTFrequencyServer, HelperTrieProcessConfirmations) in
  let backend :=
    {| triedb := trie_NewDatabase ChtTablePrefix;
       section := 0;
       sectionSize := sectionSize;
       lastHash := zeroHash;
       trie := None |} in
  mkChainIndexer "chtIndex-" backend sectionSize confirmReq 100 "cht".

Definition Reset (section : Z) (lastSectionHead : Hash)
  : M (World (t T TDB) D) unit :=
  w ← get;
  let c := backend w in
  let root :=
    if 0 <? section
    then GetChtRoot (diskdb w) (u64 (section - 1)) lastSectionHead
    else zeroHash in
  let '(tr, err) :=
    match trie_New root (triedb c) (diskdb w) with
    | inl tr => (Some tr, None)
    | inr e => (None, Some e)
    end in
  put (set_backend w (set_section (set_trie c tr) section));;
  return_err err.

Definition Process (header : Header) : M (World (t T TDB) D) unit :=
  let hash := Header_Hash header in
  let num := BigInt_Uint64 (Header_Number header) in
  w ← get;
  let c := set_lastHash (backend w) hash in
  put (set_backend w c);;
  match ReadTd (diskdb w) hash num with
  | None => panic
  | Some td =>
      let encNumber := BigEndian.PutUint64 num in
      let '(data, _) := EncodeToBytes (mkChtNode hash td) in
      match trie c with
      | None => panic
      | Some tr =>
          put (set_backend w (set_trie c (Some (trie_Update tr encNumber data))))
      end
  end.

Definition Commit : M (World (t T TDB) D) unit :=
  w ← get;
  let c := backend w in
  match trie c with
  | None => panic
  | Some tr =>
      let '((tr', tdb'), (root, err)) := trie_Commit tr (triedb c) in
      let c := set_triedb (set_trie c (Some tr')) tdb' in
      put (set_backend w c);;
      match err with
      | Some e => fail e
      | None =>
          let '((tdb'', db'), _) := triedb_Commit tdb' root (diskdb w) in
          let c := set_triedb c tdb'' in
          let logs' :=
            if u64 (u64 (section c + 1) * sectionSize c) mod CHTFrequencyClient =? 0
            then logs w ++
                 [LogStoringCHT
                    (u64 (section c * sectionSize c) / CHTFrequencyClient)
                    (lastHash c) root]
            else logs w in
          put (mkWorld c (StoreChtRoot db' (section c) (lastHash c) root) logs')
      end
  end.

End Methods.

End ChtIndexerBackend.

Module BloomTrieIndexerBackend.

(** The fields of the struct but [diskdb], as for the CHT backend. *)
Record t (T TDB : Type) : Type := mk {
  triedb : TDB;
  section : Z;
  parentSectionSize : Z;
  bloomTrieRatio : Z;
  trie : option T;
  sectionHeads : list Hash
}.
Arguments mk {T TDB}.
Arguments triedb {T TDB}.
Arguments section {T TDB}.
Arguments parentSectionSize {T TDB}.
Arguments bloomTrieRatio {T TDB}.
Arguments trie {T TDB}.
Arguments sectionHeads {T TDB}.

Section Methods.
Context {D T TDB Header : Type}.
Context `{!Database D, !TrieOps T TDB D, !RawDB D, !Bitutil, !HeaderOps Header}.

Definition set_trie (b : t T TDB) (tr : option T) : t T TDB :=
  mk (triedb b) (section b) (parentSectionSize b) (bloomTrieRatio b) tr
     (sectionHeads b).
Definition set_section (b : t T TDB) (s : Z) : t T TDB :=
  mk (triedb b) s (parentSectionSize b) (bloomTrieRatio b) (trie b)
     (sectionHeads b).
Definition set_triedb (b : t T TDB) (tdb : TDB) : t T TDB :=
  mk tdb (section b) (parentSectionSize b) (bloomTrieRatio b) (trie b)
     (sectionHeads b).
Definition set_sectionHeads (b : t T TDB) (hs : list Hash) : t T TDB :=
  mk (triedb b) (section b) (parentSectionSize b) (bloomTrieRatio b) (trie b)
     hs.

(** The backend [NewBloomTrieIndexer] builds, and the indexer it is
    handed to. *)
Definition NewBloomTrieIndexer (clientMode : bool) : ChainIndexer (t T TDB) :=
  let '(parentSectionSize, confirmReq) :=
    if clientMode
    then (BloomTrieFrequency, HelperTrieConfirmations)
    else (ethBloomBitsSection, HelperTrieProcessConfirmations) in
  let bloomTrieRatio := BloomTrieFrequency / parentSectionSize in
  let backend :=
    {| triedb := trie_NewDatabase BloomTrieTablePrefix;
       section := 0;
       parentSectionSize := parentSectionSize;
       bloomTrieRatio := bloomTrieRatio;
       trie := None;
       sectionHeads := replicate (Z.to_nat bloomTrieRatio) zeroHash |} in
  mkChainIndexer "bltIndex-" backend BloomTrieFrequency
    (u64 (confirmReq - ethBloomBitsConfirmations)) 100 "bloomtrie".

Definition Reset (section : Z) (lastSectionHead : Hash)
  : M (World (t T TDB) D) unit :=
  w ← get;
  let b := backend w in
  let root :=
    if 0 <? section
    then GetBloomTrieRoot (diskdb w) (u64 (section - 1)) lastSectionHead
    else zeroHash in
  let '(tr, err) :=
    match trie_New root (triedb b) (diskdb w) with
    | inl tr => (Some tr, None)
    | inr e => (None, Some e)
    end in
  put (set_backend w (set_section (set_trie b tr) section));;
  return_err err.

(** A division by zero and an index out of range are run-time panics. *)
Definition Process (header : Header) : M (World (t T TDB) D) unit :=
  w ← get;
  let b := backend w in
  let num :=
    u64 (BigInt_Uint64 (Header_Number header) - u64 (section b * BloomTrieFrequency)) in
  if parentSectionSize b =? 0 then panic
  else if u64 (num + 1) mod parentSectionSize b =? 0 then
    let slot := num / parentSectionSize b in
    match index (sectionHeads b) slot with
    | None => panic
    | Some _ =>
        put (set_backend w
               (set_sectionHeads b
                  (<[Z.to_nat slot := Header_Hash header]> (sectionHeads b))))
    end
  else mret tt.

(** The inner loop of [Commit] for bit [i]: [n] iterations are left, the
    next one is for sub-section [j]. *)
Fixpoint readSubSections (n : nat) (i j : Z) (decomp : list byte)
  : M (World (t T TDB) D) (list byte) :=
  match n with
  | O => mret decomp
  | S n' =>
      w ← get;
      let b := backend w in
      match index (sectionHeads b) j with
      | None => panic
      | Some head =>
          let '(data, err) :=
            ReadBloomBits (diskdb w) i
              (u64 (u64 (section b * bloomTrieRatio b) + j)) head in
          match err with
          | Some e => fail e
          | None =>
              let '(decompData, err2) :=
                DecompressBytes data (parentSectionSize b / 8) in
              match err2 with
              | Some e => fail e
              | None => readSubSections n' i (j + 1) (decomp ++ decompData)
              end
          end
      end
  end.

Definition encKey (i section : Z) : list byte :=
  BigEndian.PutUint16 (u16 i) ++ BigEndian.PutUint64 section.

(** The outer loop of [Commit]: [n] bits are left, the next one is [i]. *)
Fixpoint commitBits (n : nat) (i compSize decompSize : Z)
  : M (World (t T TDB) D) (Z * Z) :=
  match n with
  | O => mret (compSize, decompSize)
  | S n' =>
      w ← get;
      let key := encKey i (section (backend w)) in
      decomp ← readSubSections (Z.to_nat (bloomTrieRatio (backend w))) i 0 [];
      let comp := CompressBytes decomp in
      let decompSize := u64 (decompSize + Z.of_nat (length decomp)) in
      let compSize := u64 (compSize + Z.of_nat (length comp)) in
      w ← get;
      let b := backend w in
      match trie b with
      | None => panic
      | Some tr =>
          let tr' :=
            if 0 <? Z.of_nat (length comp)
            then trie_Update tr key comp
            else trie_Delete tr key in
          put (set_backend w (set_trie b (Some tr')));;
          commitBits n' (i + 1) compSize decompSize
      end
  end.

Definition Commit : M (World (t T TDB) D) unit :=
  '(compSize, decompSize) ← commitBits (Z.to_nat BloomBitLength) 0 0 0;
  w ← get;
  let b := backend w in
  match trie b with
  | None => panic
  | Some tr =>
      let '((tr', tdb'), (root, err)) := trie_Commit tr (triedb b) in
      let b := set_triedb (set_trie b (Some tr')) tdb' in
      put (set_backend w b);;
      match err with
      | Some e => fail e
      | None =>
          let '((tdb'', db'), _) := triedb_Commit tdb' root (diskdb w) in
          let b := set_triedb b tdb'' in
          put (mkWorld b db' (logs w));;
          match index (sectionHeads b) (u64 (bloomTrieRatio b - 1)) with
          | None => panic
          | Some sectionHead =>
              put (mkWorld b
                     (StoreBloomTrieRoot db' (section b) sectionHead root)
                     (logs w ++
                      [LogStoringBloomTrie (section b) sectionHead root
                         compSize decompSize]))
          end
      end
  end.

End Methods.

End BloomTrieIndexerBackend.

(** ** Vocabulary of the statements *)

(** The two kinds of section root, and the store operations by kind. *)
Inductive Kind : Type := KindCHT | KindBloomTrie.

Section RootStoreByKind.
Context {D : Type} `{!Database D}.

Definition rootKey (k : Kind) : Z -> Hash -> list byte :=
  match k with KindCHT => chtRootKey | KindBloomTrie => bloomTrieRootKey end.

Definition GetRoot (k : Kind) : D -> Z -> Hash -> Hash :=
  match k with KindCHT => GetChtRoot | KindBloomTrie => GetBloomTrieRoot end.

Definition StoreRoot (k : Kind) : D -> Z -> Hash -> Hash -> D :=
  match k with KindCHT => StoreChtRoot | KindBloomTrie => StoreBloomTrieRoot end.

(** One write to the root store, and a history of writes. *)
Record StoreOp : Type := mkStoreOp {
  op_kind : Kind;
  op_section : Z;
  op_head : Hash;
  op_root : Hash
}.

Definition applyStore (db : D) (op : StoreOp) : D :=
  StoreRoot (op_kind op) db (op_section op) (op_head op) (op_root op).

Definition applyStores (ops : list StoreOp) (db : D) : D :=
  fold_left applyStore ops db.

End RootStoreByKind.

Definition is_u64 (z : Z) : Prop := 0 <= z < 2 ^ 64.

(** A store that keeps what is put into it: a successful [Put] is read back
    by [Get], and a [Put] leaves the other keys alone. *)
Class DatabaseLaws (D : Type) `{!Database D} : Prop := {
  Get_Put_eq : forall d k v d',
    Put d k v = (d', None) -> Get d' k = (v, None);
  Get_Put_ne : forall d k v k',
    k <> k' -> (Get (Put d k v).1 k').1 = (Get d k').1
}.

(** A store nothing was written to returns no data for any key. *)
Definition blank {D} `{!Database D} (d : D) : Prop :=
  forall k, (Get d k).1 = [].

(** The contract of the trie as a map from keys to values, observed through
    [trie_Get] (the method [Get], which returns no bytes for an absent key). *)
Class TrieLaws (T TDB D : Type) `{!TrieOps T TDB D}
    (trie_Get : T -> list byte -> list byte) : Prop := {
  Get_Update_eq : forall t k v, trie_Get (trie_Update t k v) k = v;
  Get_Update_ne : forall t k v k',
    k <> k' -> trie_Get (trie_Update t k v) k' = trie_Get t k';
  Get_Delete_eq : forall t k, trie_Get (trie_Delete t k) k = [];
  Get_Delete_ne : forall t k k',
    k <> k' -> trie_Get (trie_Delete t k) k' = trie_Get t k'
}.

Section BloomVocabulary.
Context {D T TDB : Type}.
Context `{!Database D, !TrieOps T TDB D, !RawDB D, !Bitutil}.
Import BloomTrieIndexerBackend.

(** A backend as [NewBloomTrieIndexer] leaves it for the given mode, up to
    the fields the methods change. *)
Definition built (clientMode : bool) (b : t T TDB) : Prop :=
  parentSectionSize b
    = (if clientMode then BloomTrieFrequency else ethBloomBitsSection)
  /\ bloomTrieRatio b = BloomTrieFrequency / parentSectionSize b
  /\ Z.of_nat (length (sectionHeads b)) = bloomTrieRatio b.

(** The backend holds an open trie and one scratch slot per sub-section. *)
Definition ready (b : t T TDB) : Prop :=
  is_Some (trie b)
  /\ Z.of_nat (length (sectionHeads b)) = bloomTrieRatio b.

(** Reading and decompressing the bit vector of bit [i] for the [j]-th
    sub-section of the backend's section. *)
Definition subVector (b : t T TDB) (db : D) (i j : Z) : res (list byte) :=
  match index (sectionHeads b) j with
  | None => Panic
  | Some head =>
      let '(data, err) :=
        ReadBloomBits db i (u64 (u64 (section b * bloomTrieRatio b) + j)) head in
      match err with
      | Some e => Fail e
      | None =>
          let '(decompData, err2) :=
            DecompressBytes data (parentSectionSize b / 8) in
          match err2 with
          | Some e => Fail e
          | None => Ret decompData
          end
      end
  end.

Definition vectorOr (r : res (list byte)) : list byte :=
  match r with Ret d => d | _ => [] end.

(** The sub-section vectors [j0 .. j0+n-1] of bit [i], concatenated in
    increasing order. *)
Definition columnFrom (b : t T TDB) (db : D) (i j0 : Z) (n : nat) : list byte :=
  concat (map (fun j => vectorOr (subVector b db i j)) (seqZ j0 (Z.of_nat n))).

(** The compressed column of bit [i] over the whole section. *)
Definition column (b : t T TDB) (db : D) (i : Z) : list byte :=
  CompressBytes (columnFrom b db i 0 (Z.to_nat (bloomTrieRatio b))).

(** What the commit does to the trie for bit [i]: a non-empty column is
    inserted under the key of (bit, section), an empty one deletes the
    leaf at that key. *)
Definition bitStep (b : t T TDB) (db : D) (tr : T) (i : Z) : T :=
  match column b db i with
  | [] => trie_Delete tr (encKey i (section b))
  | (_ :: _) as comp => trie_Update tr (encKey i (section b)) comp
  end.

(** The trie after the commit loop has run over the bits of [bits]. *)
Definition bitSteps (b : t T TDB) (db : D) (tr : T) (bits : list Z) : T :=
  fold_left (bitStep b db) bits tr.

(** Every sub-section vector of bit [i] is read and decompressed without
    error. *)
Definition readsOK (b : t T TDB) (db : D) (i : Z) : Prop :=
  forall j, 0 <= j < bloomTrieRatio b -> exists d, subVector b db i j = Ret d.

(** The first read or decompression that fails, in the order of the
    commit loop, is that of bit [i], sub-section [j], with error [e]. *)
Definition firstFailure (b : t T TDB) (db : D) (i j : Z) (e : error) : Prop :=
  0 <= i < BloomBitLength /\ 0 <= j < bloomTrieRatio b
  /\ subVector b db i j = Fail e
  /\ (forall j', 0 <= j' < j -> exists d, subVector b db i j' = Ret d)
  /\ (forall i', 0 <= i' < i -> readsOK b db i').

End BloomVocabulary.

(** ** A small in-memory environment, for concrete runs *)

Module Mem.

(** A map-backed store that can be switched to failing every access. *)
Record TestDatabase : Type := mkTestDatabase {
  cells : gmap (list byte) (list byte);
  failing : bool
}.

Definition errNotFound : error := "not found".
Definition errIO : error := "input/output error".

Definition testDatabase : Database TestDatabase := {|
  Get d k :=
    if failing d then ([], Some errIO)
    else match cells d !! k with
         | Some v => (v, None)
         | None => ([], Some errNotFound)
         end;
  Put d k v :=
    if failing d then (d, Some errIO)
    else (mkTestDatabase (<[k := v]> (cells d)) false, None)
|}.

Definition emptyDatabase : TestDatabase := mkTestDatabase ∅ false.
Definition brokenDatabase : TestDatabase := mkTestDatabase ∅ true.

(** Tries as finite maps; the node database keeps the committed tries by
    root.  The root of a trie is a digest of its leaves that is good enough
    to tell the example tries apart. *)
Definition TestTrie : Type := gmap (list byte) (list byte).
Definition TestTrieDB : Type := gmap Hash TestTrie.

Definition testRoot (t : TestTrie) : Hash :=
  BytesToHash (concat (map (fun kv => kv.1 ++ kv.2) (map_to_list t))).

Definition testTrieOps : TrieOps TestTrie TestTrieDB TestDatabase := {|
  trie_NewDatabase _ := ∅;
  trie_New root tdb _ :=
    if decide (root = zeroHash) then inl ∅
    else match tdb !! root with
         | Some t => inl t
         | None => inr "missing trie node"
         end;
  trie_Update t k v :=
    match v with [] => delete k t | _ => <[k := v]> t end;
  trie_Delete t k := delete k t;
  trie_Commit t tdb := ((t, <[testRoot t := t]> tdb), (testRoot t, None));
  triedb_Commit tdb _ d := ((tdb, d), None)
|}.

Definition testTrieGet (t : TestTrie) (k : list byte) : list byte :=
  default [] (t !! k).

Definition headerTDKey (number : Z) (hash : Hash) : list byte :=
  String.list_byte_of_string "h" ++ BigEndian.PutUint64 number ++ Bytes hash
    ++ String.list_byte_of_string "t".

Definition bloomBitsKey (bit section : Z) (hash : Hash) : list byte :=
  String.list_byte_of_string "B" ++ BigEndian.PutUint16 bit
    ++ BigEndian.PutUint64 section ++ Bytes hash.

Definition testRawDB : RawDB TestDatabase := {|
  ReadTd d hash number :=
    match (@Get _ testDatabase d (headerTDKey number hash)).1 with
    | [] => None
    | data => Some (BigEndian.Uint data)
    end;
  ReadBloomBits d bit section head :=
    @Get _ testDatabase d (bloomBitsKey bit section head)
|}.

(** The identity codec: nothing is compressed, and decompression refuses
    data longer than the target. *)
Definition testBitutil : Bitutil := {|
  CompressBytes data := data;
  DecompressBytes data target :=
    if Z.of_nat (length data) <=? target then (data, None)
    else ([], Some "exceeded target size")
|}.

Definition testRLP : RLP := {|
  EncodeToBytes n :=
    (Bytes (ChtNode_Hash n) ++ BigEndian.PutUint64 (ChtNode_Td n), None)
|}.

(** Headers reduced to a number and a hash. *)
Record TestHeader : Type := mkTestHeader {
  number : Z;
  hash : Hash
}.

Definition testHeaderOps : HeaderOps TestHeader := {|
  Header_Hash := hash;
  Header_Number := number
|}.

Definition testParams : Params := {|
  MainnetGenesisHash :=
    HexToHash "d4e56740f876aef8c010b86a40d5f56745a118d0906a34e69aec8c0db1cb8fa3";
  TestnetGenesisHash :=
    HexToHash "41941023680923e0fe4d74a34bdac8141f2540e3ae90623718e47d66d1ca4a2d"
|}.

(** Sample hashes, headers and worlds. *)
Definition hashA : Hash := BytesToHash [xa1].
Definition hashB : Hash := BytesToHash [xb2].

Definition header0 : TestHeader := mkTestHeader 0 hashA.
Definition header4095 : TestHeader := mkTestHeader 4095 hashA.

(** A store that holds the total difficulty 1 of [header0]. *)
Definition databaseWithTd : TestDatabase :=
  mkTestDatabase {[ headerTDKey 0 hashA := [x01] ]} false.

Definition ChtWorld : Type :=
  World (ChtIndexerBackend.t TestTrie TestTrieDB) TestDatabase.
Definition BloomWorld : Type :=
  World (BloomTrieIndexerBackend.t TestTrie TestTrieDB) TestDatabase.

Definition chtWorld (clientMode : bool) (db : TestDatabase) : ChtWorld :=
  mkWorld
    (ci_backend (@ChtIndexerBackend.NewChtIndexer _ _ _ testTrieOps clientMode))
    db [].

(** A CHT backend of the server with an open, empty trie. *)
Definition chtOpenWorld (db : TestDatabase) : ChtWorld :=
  mkWorld (ChtIndexerBackend.mk ∅ 0 4096 zeroHash (Some ∅)) db [].

Definition bloomWorld (clientMode : bool) (db : TestDatabase) : BloomWorld :=
  mkWorld
    (ci_backend
       (@BloomTrieIndexerBackend.NewBloomTrieIndexer _ _ _ testTrieOps clientMode))
    db [].

(** A BloomTrie backend with an open, empty trie, as [Reset] leaves a
    fresh one for section 0. *)
Definition bloomOpenWorld (clientMode : bool) (db : TestDatabase) : BloomWorld :=
  let b := backend (bloomWorld clientMode db) in
  mkWorld
    (BloomTrieIndexerBackend.mk
       (BloomTrieIndexerBackend.triedb b) 0
       (BloomTrieIndexerBackend.parentSectionSize b)
       (BloomTrieIndexerBackend.bloomTrieRatio b)
       (Some ∅)
       (BloomTrieIndexerBackend.sectionHeads b))
    db [].

(** A store that holds a one-byte vector for every bit of sub-section 0
    under the zero head. *)
Definition bloomBitsDatabase : TestDatabase :=
  mkTestDatabase
    (list_to_map
       (map (fun i => (bloomBitsKey i 0 zeroHash, [x01])) (seqZ 0 BloomBitLength)))
    false.

#[local] Existing Instance testDatabase.
#[local] Existing Instance testTrieOps.
#[local] Existing Instance testRawDB.
#[local] Existing Instance testBitutil.
#[local] Existing Instance testRLP.
#[local] Existing Instance testHeaderOps.

(** Section 0 is built from one header and committed; section 1 is then
    reset and committed at once. *)
Definition chtStaleRun : M ChtWorld unit :=
  ChtIndexerBackend.Reset 0 zeroHash;;
  ChtIndexerBackend.Process header0;;
  ChtIndexerBackend.Commit;;
  ChtIndexerBackend.Reset 1 hashA;;
  ChtIndexerBackend.Commit.

(** The last header of the first sub-section of section 0 is processed,
    then the backend is reset for section 1. *)
Definition bloomResetRun : M BloomWorld unit :=
  BloomTrieIndexerBackend.Reset 0 zeroHash;;
  BloomTrieIndexerBackend.Process header4095;;
  BloomTrieIndexerBackend.Reset 1 hashA.

End Mem.

(** ** Vocabulary of the statements about runs *)

#[global] Instance Kind_eq_dec : EqDecision Kind.
Proof. solve_decision. Defined.

Section RootStoreHistory.
Context {D : Type} `{!Database D}.

(** Whether a write is one to the entry of (kind, section, head). *)
Definition writesTo (op : StoreOp) (k : Kind) (s : Z) (h : Hash) : bool :=
  bool_decide (op_kind op = k /\ u64 (op_section op) = u64 s /\ op_head op = h).

(** The root of the last write of a history to the entry, if there is one. *)
Definition latestRoot (ops : list StoreOp) (k : Kind) (s : Z) (h : Hash)
  : option Hash :=
  fold_left (fun acc op => if writesTo op k s h then Some (op_root op) else acc)
    ops None.

(** Every [Put] of the history reported no error. *)
Fixpoint allStored (ops : list StoreOp) (db : D) : Prop :=
  match ops with
  | [] => True
  | op :: ops' =>
      (Put db (rootKey (op_kind op) (op_section op) (op_head op))
         (Bytes (op_root op))).2 = None
      /\ allStored ops' (applyStore db op)
  end.

End RootStoreHistory.

(** The calls a driver makes on a backend. *)
Inductive Call (Header : Type) : Type :=
  | CallReset (section : Z) (lastSectionHead : Hash)
  | CallProcess (header : Header)
  | CallCommit.
Arguments CallReset {Header}.
Arguments CallProcess {Header}.
Arguments CallCommit {Header}.

Definition isCommit {Header} (c : Call Header) : bool :=
  match c with CallCommit => true | _ => false end.

Section ChtRuns.
Context {D T TDB Header : Type}.
Context `{!Database D, !TrieOps T TDB D, !RawDB D, !RLP, !HeaderOps Header}.
Import ChtIndexerBackend.

(** Modelled from the spec: the driver of the backends (the chain indexer) is
    outside the indexed file; it calls [Process] once per header of the
    section, in increasing order. *)
Fixpoint chtProcessAll (hs : list Header) : M (World (t T TDB) D) unit :=
  match hs with
  | [] => mret tt
  | h :: hs' => Process h;; chtProcessAll hs'
  end.

(** Modelled from the spec: one cycle of the driver, [Reset], then [Process]
    for every header, then [Commit]. *)
Definition chtCycle (section : Z) (lastSectionHead : Hash) (hs : list Header)
  : M (World (t T TDB) D) unit :=
  Reset section lastSectionHead;; chtProcessAll hs;; Commit.

(** The world after a call, whatever the call returned. *)
Definition chtCall (c : Call Header) (w : World (t T TDB) D) : World (t T TDB) D :=
  match c with
  | CallReset s h => (Reset s h w).2
  | CallProcess hdr => (Process hdr w).2
  | CallCommit => (Commit w).2
  end.

Definition chtCalls (cs : list (Call Header)) (w : World (t T TDB) D)
  : World (t T TDB) D :=
  fold_left (fun w c => chtCall c w) cs w.

(** The leaf [Process] writes for a header: its key, and its value when the
    total difficulty is there. *)
Definition chtLeafKey (header : Header) : list byte :=
  BigEndian.PutUint64 (BigInt_Uint64 (Header_Number header)).

Definition chtLeafValue (db : D) (header : Header) : option (list byte) :=
  match ReadTd db (Header_Hash header) (BigInt_Uint64 (Header_Number header)) with
  | Some td => Some (EncodeToBytes (mkChtNode (Header_Hash header) td)).1
  | None => None
  end.

Definition chtInsert (db : D) (tr : T) (header : Header) : T :=
  trie_Update tr (chtLeafKey header) (default [] (chtLeafValue db header)).

End ChtRuns.

Section BloomRuns.
Context {D T TDB Header : Type}.
Context `{!Database D, !TrieOps T TDB D, !RawDB D, !Bitutil, !HeaderOps Header}.
Import BloomTrieIndexerBackend.

(** Modelled from the spec: the driver calls [Process] once per header of
    the section, in increasing order. *)
Fixpoint bloomProcessAll (hs : list Header) : M (World (t T TDB) D) unit :=
  match hs with
  | [] => mret tt
  | h :: hs' => Process h;; bloomProcessAll hs'
  end.

(** Modelled from the spec: one cycle of the driver. *)
Definition bloomCycle (section : Z) (lastSectionHead : Hash) (hs : list Header)
  : M (World (t T TDB) D) unit :=
  Reset section lastSectionHead;; bloomProcessAll hs;; Commit.

Definition bloomCall (c : Call Header) (w : World (t T TDB) D)
  : World (t T TDB) D :=
  match c with
  | CallReset s h => (Reset s h w).2
  | CallProcess hdr => (Process hdr w).2
  | CallCommit => (Commit w).2
  end.

Definition bloomCalls (cs : list (Call Header)) (w : World (t T TDB) D)
  : World (t T TDB) D :=
  fold_left (fun w c => bloomCall c w) cs w.

(** The headers [hs] are those of the blocks [first], [first + 1], ... *)
Definition numberedFrom (first : Z) (hs : list Header) : Prop :=
  forall (k : nat) (hdr : Header),
    hs !! k = Some hdr -> Header_Number hdr = first + Z.of_nat k.

End BloomRuns.

(** Sample runs in the in-memory environment. *)
Module MemRuns.

(** The header of block [n], with a hash made of the number. *)
Definition headerOf (n : Z) : Mem.TestHeader :=
  Mem.mkTestHeader n (BytesToHash (xee :: BigEndian.PutUint64 n)).

Definition headersFrom (first count : Z) : list Mem.TestHeader :=
  map headerOf (seqZ first count).

(** A store holding the total difficulty [n + 1] of every block [n] of
    [headersFrom first count]. *)
Definition databaseWithTds (first count : Z) : Mem.TestDatabase :=
  Mem.mkTestDatabase
    (list_to_map
       (map (fun n =>
               (Mem.headerTDKey n (Mem.hash (headerOf n)),
                BigEndian.PutUint64 (n + 1)))
          (seqZ first count)))
    false.

(** A server CHT backend at section 7 with an open, empty trie, the hash
    [Mem.hashA] being that of the last header it processed. *)
Definition chtServerWorld7 : Mem.ChtWorld :=
  mkWorld (ChtIndexerBackend.mk ∅ 7 4096 Mem.hashA (Some ∅)) Mem.emptyDatabase [].

(** A server BloomTrie backend as an earlier section left it: section 5,
    no trie, every scratch slot holding [Mem.hashB]. *)
Definition bloomStaleWorld : Mem.BloomWorld :=
  mkWorld
    (BloomTrieIndexerBackend.mk ∅ 5 4096 8 None (replicate 8 Mem.hashB))
    Mem.emptyDatabase [].

End MemRuns.

(** * Properties *)

(** Unfolds the plumbing of the monad. *)
Ltac unfold_M :=
  unfold mbind, M_bind, mret, M_ret, get, put, fail, panic, return_err.

(** ** The model on small inputs *)

Example PutUint64_258 :
  BigEndian.PutUint64 258 = [x00; x00; x00; x00; x00; x00; x01; x02].
Proof. reflexivity. Qed.

Example PutUint64_wraps :
  BigEndian.PutUint64 (2 ^ 64 + 1) = BigEndian.PutUint64 1.
Proof. reflexivity. Qed.

Example PutUint16_2047 : BigEndian.PutUint16 2047 = [x07; xff].
Proof. reflexivity. Qed.

Example BytesToHash_short :
  Bytes (BytesToHash [x01; x02]) = replicate 30 x00 ++ [x01; x02].
Proof. reflexivity. Qed.

Example BytesToHash_long :
  Bytes (BytesToHash (xff :: replicate 31 x00 ++ [x07]))
  = replicate 31 x00 ++ [x07].
Proof. reflexivity. Qed.

Example mainnet_sectionHead_bytes :
  take 4 (Bytes (sectionHead mainnetCheckpoint)) = [xa3; xef; x48; xcd]
  /\ length (Bytes (sectionHead mainnetCheckpoint)) = 32%nat.
Proof. split; vm_compute; reflexivity. Qed.

Example chtRootKey_layout :
  chtRootKey 258 zeroHash
  = String.list_byte_of_string "chtRoot-"
      ++ [x00; x00; x00; x00; x00; x00; x01; x02] ++ replicate 32 x00.
Proof. reflexivity. Qed.

Example bloomTrieRootKey_layout :
  bloomTrieRootKey 1 zeroHash
  = String.list_byte_of_string "bltRoot-"
      ++ [x00; x00; x00; x00; x00; x00; x00; x01] ++ replicate 32 x00.
Proof. reflexivity. Qed.

Example encKey_layout :
  BloomTrieIndexerBackend.encKey 2047 3
  = [x07; xff; x00; x00; x00; x00; x00; x00; x00; x03].
Proof. reflexivity. Qed.

Example index_in_range : index [10; 20; 30] 2 = Some 30.
Proof. reflexivity. Qed.

Example index_out_of_range : index [10; 20; 30] 3 = None.
Proof. reflexivity. Qed.

Example NewBloomTrieIndexer_server :
  let ix := @BloomTrieIndexerBackend.NewBloomTrieIndexer
              _ _ _ Mem.testTrieOps false in
  BloomTrieIndexerBackend.bloomTrieRatio (ci_backend ix) = 8
  /\ BloomTrieIndexerBackend.sectionHeads (ci_backend ix) = replicate 8 zeroHash
  /\ ci_sectionSize ix = 32768
  /\ ci_confirmsReq ix = 0.
Proof. repeat split. Qed.

Example NewBloomTrieIndexer_client :
  let ix := @BloomTrieIndexerBackend.NewBloomTrieIndexer
              _ _ _ Mem.testTrieOps true in
  BloomTrieIndexerBackend.bloomTrieRatio (ci_backend ix) = 1
  /\ BloomTrieIndexerBackend.sectionHeads (ci_backend ix) = [zeroHash]
  /\ ci_sectionSize ix = 32768
  /\ ci_confirmsReq ix = 1792.
Proof. repeat split. Qed.

Example NewChtIndexer_sizes :
  ci_sectionSize (@ChtIndexerBackend.NewChtIndexer _ _ _ Mem.testTrieOps true)
    = 32768
  /\ ci_sectionSize (@ChtIndexerBackend.NewChtIndexer _ _ _ Mem.testTrieOps false)
      = 4096.
Proof. split; reflexivity. Qed.

(** ** Machine integers and their encodings *)

Lemma Z_of_byte_of_Z z : Z_of_byte (byte_of_Z z) = z mod 256.
Proof.
  unfold Z_of_byte, byte_of_Z.
  assert (Hr : 0 <= z mod 256 < 256) by (apply Z.mod_pos_bound; lia).
  destruct (Byte.of_N (Z.to_N (z mod 256))) as [b|] eqn:E.
  - apply Byte.to_of_N in E. rewrite E. lia.
  - apply Byte.of_N_None_iff in E. lia.
Qed.

Lemma Uint_PutUint64 v : BigEndian.Uint (BigEndian.PutUint64 v) = u64 v.
Proof.
  unfold BigEndian.Uint, BigEndian.PutUint64, u64. cbn [fold_left].
  rewrite !Z_of_byte_of_Z, !Z.shiftr_div_pow2 by lia.
  change (2 ^ 56) with 72057594037927936. change (2 ^ 48) with 281474976710656.
  change (2 ^ 40) with 1099511627776. change (2 ^ 32) with 4294967296.
  change (2 ^ 24) with 16777216. change (2 ^ 16) with 65536.
  change (2 ^ 8) with 256. change (2 ^ 64) with 18446744073709551616.
  Z.div_mod_to_equations. lia.
Qed.

Lemma Uint_PutUint16 v : BigEndian.Uint (BigEndian.PutUint16 v) = u16 v.
Proof.
  unfold BigEndian.Uint, BigEndian.PutUint16, u16. cbn [fold_left].
  rewrite !Z_of_byte_of_Z, !Z.shiftr_div_pow2 by lia.
  change (2 ^ 8) with 256. change (2 ^ 16) with 65536.
  Z.div_mod_to_equations. lia.
Qed.

Lemma PutUint64_u64 v : BigEndian.PutUint64 (u64 v) = BigEndian.PutUint64 v.
Proof.
  unfold BigEndian.PutUint64, u64.
  assert (H : forall k, 0 <= k -> k + 8 <= 64 ->
            byte_of_Z (Z.shiftr (v mod 2 ^ 64) k) = byte_of_Z (Z.shiftr v k)).
  { intros k Hk Hk'. unfold byte_of_Z.
    replace (Z.shiftr (v mod 2 ^ 64) k mod 256) with (Z.shiftr v k mod 256);
      [reflexivity|].
    change 256 with (2 ^ 8). rewrite <- !Z.land_ones by lia.
    apply Z.bits_inj'. intros n Hn.
    rewrite !Z.land_spec, !Z.shiftr_spec, Z.land_spec by lia.
    destruct (Z.ltb_spec n 8).
    - rewrite (Z.ones_spec_low 64 (n + k)) by lia. now rewrite andb_true_r.
    - rewrite (Z.ones_spec_high 8 n) by lia. now rewrite !andb_false_r. }
  rewrite !H by lia. generalize (H 0). rewrite !Z.shiftr_0_r.
  intros ->; [reflexivity | lia | lia].
Qed.

(** ** Hashes and keys *)

Lemma length_SetBytes b : length (SetBytes b) = HashLength.
Proof.
  unfold SetBytes. rewrite length_app, length_replicate, length_drop.
  unfold HashLength. lia.
Qed.

Lemma SetBytes_id b : length b = HashLength -> SetBytes b = b.
Proof.
  intros Hb. unfold SetBytes. rewrite Hb, Nat.sub_diag, drop_0, Hb, Nat.sub_diag.
  reflexivity.
Qed.

Lemma Bytes_BytesToHash b : Bytes (BytesToHash b) = SetBytes b.
Proof.
  unfold Bytes, BytesToHash.
  apply list_eq. intros i.
  destruct (decide (i < HashLength)%nat) as [Hi|Hi].
  - set (j := nat_to_fin Hi).
    assert (Hj : fin_to_nat j = i) by apply fin_to_nat_to_fin.
    rewrite <- Hj.
    rewrite (proj1 (vlookup_lookup _ j _) (lookup_fun_to_vec _ j)).
    destruct (nth_lookup_or_length (SetBytes b) (fin_to_nat j) x00) as [E|E];
      [symmetry; exact E|].
    rewrite length_SetBytes, Hj in E. lia.
  - rewrite !lookup_ge_None_2; [reflexivity | |].
    + rewrite length_SetBytes. lia.
    + rewrite length_vec_to_list. lia.
Qed.

Lemma BytesToHash_Bytes h : BytesToHash (Bytes h) = h.
Proof.
  apply vec_to_list_inj2. change (Bytes (BytesToHash (Bytes h)) = Bytes h).
  rewrite Bytes_BytesToHash. apply SetBytes_id. apply length_vec_to_list.
Qed.

Lemma BytesToHash_nil : BytesToHash [] = zeroHash.
Proof. reflexivity. Qed.

Lemma Bytes_inj h1 h2 : Bytes h1 = Bytes h2 -> h1 = h2.
Proof. apply vec_to_list_inj2. Qed.

Lemma length_PutUint64 v : length (BigEndian.PutUint64 v) = 8%nat.
Proof. reflexivity. Qed.

Lemma PutUint64_inj v w :
  BigEndian.PutUint64 v = BigEndian.PutUint64 w -> u64 v = u64 w.
Proof. intros H. rewrite <- !Uint_PutUint64, H. reflexivity. Qed.

Lemma PutUint16_inj v w :
  BigEndian.PutUint16 v = BigEndian.PutUint16 w -> u16 v = u16 w.
Proof. intros H. rewrite <- !Uint_PutUint16, H. reflexivity. Qed.

Lemma u64_id z : is_u64 z -> u64 z = z.
Proof. unfold is_u64, u64. intros. apply Z.mod_small. lia. Qed.

Lemma is_u64_u64 z : is_u64 (u64 z).
Proof. unfold is_u64, u64. apply Z.mod_pos_bound. lia. Qed.

(** The keys of the root store determine kind, section and head. *)
Lemma rootKey_inj k1 s1 h1 k2 s2 h2 :
  rootKey k1 s1 h1 = rootKey k2 s2 h2 -> k1 = k2 /\ u64 s1 = u64 s2 /\ h1 = h2.
Proof.
  intros H.
  assert (Hk : k1 = k2).
  { destruct k1, k2; try reflexivity;
      apply (f_equal (fun l => l !! 0%nat)) in H; cbn in H; discriminate. }
  subst k2. split; [reflexivity|].
  assert (H' : BigEndian.PutUint64 s1 ++ Bytes h1
               = BigEndian.PutUint64 s2 ++ Bytes h2).
  { destruct k1; cbn [rootKey] in H;
      unfold chtRootKey, bloomTrieRootKey in H;
      rewrite <- !app_assoc in H; apply app_inv_head in H; exact H. }
  apply app_inj_1 in H' as [H1 H2]; [|reflexivity].
  split; [apply PutUint64_inj, H1 | apply Bytes_inj, H2].
Qed.

Lemma PutUint64_congr a b :
  u64 a = u64 b -> BigEndian.PutUint64 a = BigEndian.PutUint64 b.
Proof.
  intros H. rewrite <- (PutUint64_u64 a), <- (PutUint64_u64 b), H. reflexivity.
Qed.

(** ** The section root store *)

Section RootStoreProperties.
Context {D : Type} `{!Database D}.

Lemma GetRoot_data k (db : D) s h :
  GetRoot k db s h = BytesToHash (Get db (rootKey k s h)).1.
Proof.
  destruct k; cbn [GetRoot rootKey]; unfold GetChtRoot, GetBloomTrieRoot;
    destruct (Get db _); reflexivity.
Qed.

Lemma StoreRoot_state k (db : D) s h r :
  StoreRoot k db s h r = (Put db (rootKey k s h) (Bytes r)).1.
Proof.
  destruct k; cbn [StoreRoot rootKey]; unfold StoreChtRoot, StoreBloomTrieRoot;
    destruct (Put db _ _); reflexivity.
Qed.

Lemma GetRoot_Store_other `{!DatabaseLaws D} k (db : D) s h k' s' h' r :
  rootKey k' s' h' <> rootKey k s h ->
  GetRoot k (StoreRoot k' db s' h' r) s h = GetRoot k db s h.
Proof.
  intros Hne. rewrite !GetRoot_data, StoreRoot_state.
  rewrite Get_Put_ne by exact Hne. reflexivity.
Qed.

(** C4. The client-frequency lookup [GetChtV2Root db i head] is the
    server-frequency lookup [GetChtRoot] at section [(i+1)*8 - 1], where
    8 is [CHTFrequencyClient / CHTFrequencyServer] = 32768 / 4096; this
    holds for every database state, index and head. *)
Theorem GetChtV2Root_frequency_conversion (db : D) (i : Z) (head : Hash) :
  CHTFrequencyClient / CHTFrequencyServer = 8 /\
  GetChtV2Root db i head = GetChtRoot db ((i + 1) * 8 - 1) head.
Proof.
  split; [reflexivity|].
  unfold GetChtV2Root, GetChtRoot, chtRootKey.
  change (CHTFrequencyClient / CHTFrequencyServer) with 8.
  rewrite (PutUint64_congr _ ((i + 1) * 8 - 1)); [reflexivity|].
  unfold u64. change (2 ^ 64) with 18446744073709551616.
  Z.div_mod_to_equations. lia.
Qed.

(** C3. On a store that keeps what is put into it: a root stored for
    (kind, section, head) by a write that went through is read back
    exactly; and after any history of writes to a blank store, a
    (kind, section, head) that none of them wrote reads as the zero hash. *)
Theorem root_store_round_trip `{!DatabaseLaws D} :
  (forall (k : Kind) (db : D) (s : Z) (h root : Hash),
      (Put db (rootKey k s h) (Bytes root)).2 = None ->
      GetRoot k (StoreRoot k db s h root) s h = root)
  /\
  (forall (db0 : D) (ops : list StoreOp) (k : Kind) (s : Z) (h : Hash),
      blank db0 ->
      Forall (fun op => ~ (op_kind op = k /\ u64 (op_section op) = u64 s
                           /\ op_head op = h)) ops ->
      GetRoot k (applyStores ops db0) s h = zeroHash).
Proof.
  split.
  - intros k db s h root Hok.
    rewrite GetRoot_data, StoreRoot_state.
    destruct (Put db (rootKey k s h) (Bytes root)) as [db' e] eqn:E.
    cbn in Hok. subst e. cbn [fst].
    rewrite (Get_Put_eq _ _ _ _ E). cbn [fst]. apply BytesToHash_Bytes.
  - intros db0 ops k s h Hblank Hops.
    assert (H0 : (Get db0 (rootKey k s h)).1 = []) by apply Hblank.
    clear Hblank. revert db0 H0.
    induction Hops as [|op ops Hop _ IH]; intros db0 H0.
    + cbn. rewrite GetRoot_data, H0. apply BytesToHash_nil.
    + cbn [applyStores fold_left]. apply IH.
      unfold applyStore. rewrite StoreRoot_state, Get_Put_ne; [exact H0|].
      intros Heq. apply rootKey_inj in Heq. apply Hop. exact Heq.
Qed.

(** C1, as the code has it. A root lookup whose read of the store yields
    no data returns the zero hash whatever error value the read reported,
    so a miss and a failed access look the same to the caller; and a root
    write hands back the store as [Put] left it, with no error value: the
    errors of [Get] and [Put] are dropped. *)
Theorem root_store_drops_errors (k : Kind) (s : Z) (h : Hash) :
  (forall (db : D) (e : option error),
      Get db (rootKey k s h) = ([], e) -> GetRoot k db s h = zeroHash)
  /\
  (forall (db db' : D) (r : Hash) (e : option error),
      Put db (rootKey k s h) (Bytes r) = (db', e) ->
      StoreRoot k db s h r = db').
Proof.
  split.
  - intros db e E. rewrite GetRoot_data, E. apply BytesToHash_nil.
  - intros db db' r e E. rewrite StoreRoot_state, E. reflexivity.
Qed.

End RootStoreProperties.

(** The in-memory store keeps what is put into it. *)
Lemma testDatabase_laws : @DatabaseLaws Mem.TestDatabase Mem.testDatabase.
Proof.
  split.
  - intros d k v d' E. cbn in *. destruct (Mem.failing d); [discriminate|].
    injection E as <-. cbn. rewrite lookup_insert_eq. reflexivity.
  - intros d k v k' Hne. cbn. destruct (Mem.failing d) eqn:E; cbn.
    + rewrite E. reflexivity.
    + rewrite lookup_insert_ne by exact Hne. reflexivity.
Qed.

Section RootStoreExamples.
#[local] Existing Instance Mem.testDatabase.
#[local] Existing Instance testDatabase_laws.

(** C1, refuted as stated: on the key of CHT section 0 an empty store
    reports a miss and a broken store reports an access error, yet both
    lookups return the same hash; and a write to the broken store fails
    while the write operation has nothing to report it with. *)
Lemma root_lookup_miss_looks_like_failure :
  Get Mem.emptyDatabase (chtRootKey 0 Mem.hashA) = ([], Some Mem.errNotFound)
  /\ Get Mem.brokenDatabase (chtRootKey 0 Mem.hashA) = ([], Some Mem.errIO)
  /\ Mem.errNotFound <> Mem.errIO
  /\ GetChtRoot Mem.emptyDatabase 0 Mem.hashA = GetChtRoot Mem.brokenDatabase 0 Mem.hashA
  /\ GetBloomTrieRoot Mem.emptyDatabase 0 Mem.hashA
     = GetBloomTrieRoot Mem.brokenDatabase 0 Mem.hashA
  /\ (Put Mem.brokenDatabase (chtRootKey 0 Mem.hashA) (Bytes Mem.hashB)).2
     = Some Mem.errIO
  /\ StoreChtRoot Mem.brokenDatabase 0 Mem.hashA Mem.hashB = Mem.brokenDatabase
  /\ StoreBloomTrieRoot Mem.brokenDatabase 0 Mem.hashA Mem.hashB = Mem.brokenDatabase.
Proof. repeat split; try (vm_compute; reflexivity). discriminate. Qed.

Lemma root_store_drops_errors_witness :
  GetRoot KindCHT Mem.brokenDatabase 0 Mem.hashA = zeroHash
  /\ StoreRoot KindCHT Mem.brokenDatabase 0 Mem.hashA Mem.hashB = Mem.brokenDatabase.
Proof.
  destruct (root_store_drops_errors (D := Mem.TestDatabase) KindCHT 0 Mem.hashA)
    as [HG HS].
  split.
  - apply (HG Mem.brokenDatabase (Some Mem.errIO)). reflexivity.
  - apply (HS Mem.brokenDatabase Mem.brokenDatabase Mem.hashB (Some Mem.errIO)).
    reflexivity.
Defined.

Lemma root_store_round_trip_witness :
  GetRoot KindCHT (StoreRoot KindCHT Mem.emptyDatabase 7 Mem.hashA Mem.hashB) 7 Mem.hashA
    = Mem.hashB
  /\ GetRoot KindBloomTrie
       (applyStores [mkStoreOp KindCHT 7 Mem.hashA Mem.hashB;
                     mkStoreOp KindBloomTrie 6 Mem.hashA Mem.hashB] Mem.emptyDatabase)
       7 Mem.hashA = zeroHash.
Proof.
  destruct (root_store_round_trip (D := Mem.TestDatabase)) as [H1 H2].
  split.
  - apply H1. reflexivity.
  - apply H2.
    + intros k. reflexivity.
    + repeat constructor; cbn; intros (Hk & Hs & _);
        [discriminate Hk | vm_compute in Hs; discriminate Hs].
Defined.

End RootStoreExamples.

(** ** The trusted checkpoints *)

(** C9. Provided the two genesis hashes of package [params] differ, the
    lookup by genesis hash returns exactly [mainnetCheckpoint] for the mainnet
    genesis and [ropstenCheckpoint] for the testnet genesis, and reports
    "not found" for every other hash. *)
Theorem trusted_checkpoint_lookup `{!Params} :
  MainnetGenesisHash <> TestnetGenesisHash ->
  lookupCheckpoint MainnetGenesisHash = Some mainnetCheckpoint
  /\ lookupCheckpoint TestnetGenesisHash = Some ropstenCheckpoint
  /\ (forall g : Hash,
        g <> MainnetGenesisHash -> g <> TestnetGenesisHash ->
        lookupCheckpoint g = None).
Proof.
  intros Hne. unfold lookupCheckpoint, trustedCheckpoints. repeat split.
  - rewrite lookup_insert_ne by congruence. apply lookup_insert_eq.
  - apply lookup_insert_eq.
  - intros g Hm Ht. rewrite !lookup_insert_ne by congruence. apply lookup_empty.
Qed.

Lemma trusted_checkpoint_lookup_witness :
  @lookupCheckpoint Mem.testParams (@MainnetGenesisHash Mem.testParams)
    = Some mainnetCheckpoint
  /\ @lookupCheckpoint Mem.testParams (@TestnetGenesisHash Mem.testParams)
     = Some ropstenCheckpoint
  /\ (forall g : Hash,
        g <> @MainnetGenesisHash Mem.testParams ->
        g <> @TestnetGenesisHash Mem.testParams ->
        @lookupCheckpoint Mem.testParams g = None).
Proof.
  apply (@trusted_checkpoint_lookup Mem.testParams).
  intros H. apply (f_equal Bytes) in H. vm_compute in H. discriminate H.
Defined.

(** ** The CHT backend *)

Section ChtProperties.
Context {D T TDB Header : Type}.
Context `{!Database D, !TrieOps T TDB D, !RawDB D, !RLP, !HeaderOps Header}.
Import ChtIndexerBackend.

#[local] Abbreviation CW := (World (t T TDB) D).

(** What [Reset] leaves behind, error or not. *)
Lemma ChtReset_spec (w : CW) (s : Z) (head : Hash) :
  let root := if 0 <? s then GetChtRoot (diskdb w) (u64 (s - 1)) head
              else zeroHash in
  let c := backend w in
  Reset s head w =
    match trie_New root (triedb c) (diskdb w) with
    | inl tr =>
        (Ret tt,
         mkWorld (mk (triedb c) s (sectionSize c) (lastHash c) (Some tr))
           (diskdb w) (logs w))
    | inr e =>
        (Fail e,
         mkWorld (mk (triedb c) s (sectionSize c) (lastHash c) None)
           (diskdb w) (logs w))
    end.
Proof.
  cbv zeta. unfold Reset. unfold_M. cbn.
  destruct (trie_New _ _ _); reflexivity.
Qed.

(** A [Reset] that returns no error leaves an open trie. *)
Lemma ChtReset_opens_trie (w w' : CW) (s : Z) (head : Hash) :
  Reset s head w = (Ret tt, w') -> is_Some (trie (backend w')).
Proof.
  rewrite ChtReset_spec. cbv zeta.
  destruct (trie_New _ _ _); intros E; inversion E; subst; cbn; eauto.
Qed.

(** C5. On a backend whose trie is open (as after a successful [Reset]),
    [Process header] panics exactly when the total difficulty of the header
    is absent; when it is present, [Process] returns normally, having put
    the leaf (8-byte big-endian block number, encoded (hash, total
    difficulty)) into the trie and the header hash into [lastHash]. *)
Theorem ChtProcess_halts_iff_td_missing (w : CW) (header : Header) (tr : T) :
  trie (backend w) = Some tr ->
  let hash := Header_Hash header in
  let num := BigInt_Uint64 (Header_Number header) in
  let c := backend w in
  ((Process header w).1 = Panic <-> ReadTd (diskdb w) hash num = None)
  /\
  (forall td : Z,
      ReadTd (diskdb w) hash num = Some td ->
      Process header w =
        (Ret tt,
         mkWorld
           (mk (triedb c) (section c) (sectionSize c) hash
              (Some (trie_Update tr (BigEndian.PutUint64 num)
                       (EncodeToBytes (mkChtNode hash td)).1)))
           (diskdb w) (logs w))).
Proof.
  intros Htr. cbv zeta.
  unfold Process. unfold_M. cbn. rewrite Htr.
  split.
  - destruct (ReadTd _ _ _) as [td|]; cbn.
    + destruct (EncodeToBytes _). cbn. split; discriminate.
    + split; reflexivity.
  - intros td ->. destruct (EncodeToBytes _). reflexivity.
Qed.

(** [Process] keeps the trie open. *)
Lemma ChtProcess_keeps_trie_open (w w' : CW) (header : Header) :
  is_Some (trie (backend w)) ->
  Process header w = (Ret tt, w') ->
  is_Some (trie (backend w')).
Proof.
  intros [tr Htr].
  unfold Process. unfold_M. cbn. rewrite Htr.
  destruct (ReadTd _ _ _); [|discriminate].
  destruct (EncodeToBytes _). intros E. inversion E. cbn. eauto.
Qed.

(** C10, as the code has it. When [Commit] directly follows a [Reset] that
    returned no error, it does not panic; unless the trie commit reports an
    error (which is returned, the store left as it was), it returns no
    error and writes the root for the section given to [Reset] under the
    head [lastHash] had before the [Reset], which [Reset] does not clear:
    the zero hash on a backend fresh from [NewChtIndexer], whatever an
    earlier section left there otherwise.  Nothing checks that headers
    were processed. *)
Theorem ChtCommit_right_after_Reset (w : CW) (s : Z) (head : Hash) :
  (Reset s head w).1 = Ret tt ->
  let w1 := (Reset s head w).2 in
  lastHash (backend w1) = lastHash (backend w)
  /\ (forall clientMode : bool,
        backend w = ci_backend (NewChtIndexer clientMode) ->
        lastHash (backend w1) = zeroHash)
  /\ match trie (backend w1) with
     | None => False
     | Some tr =>
         let '((_, tdb'), (root, err)) := trie_Commit tr (triedb (backend w)) in
         match err with
         | Some e => Commit w1 = (Fail e, (Commit w1).2)
                     /\ diskdb (Commit w1).2 = diskdb w
         | None =>
             Commit w1 = (Ret tt, (Commit w1).2)
             /\ diskdb (Commit w1).2 =
                  StoreChtRoot (triedb_Commit tdb' root (diskdb w)).1.2
                    s (lastHash (backend w)) root
         end
     end.
Proof.
  rewrite ChtReset_spec. cbv zeta.
  destruct (trie_New _ _ _) as [tr0|e]; cbn; [intros _|discriminate].
  split; [reflexivity|]. split.
  - intros clientMode ->. destruct clientMode; reflexivity.
  - unfold Commit. unfold_M. cbn.
    destruct (trie_Commit tr0 (triedb (backend w))) as [[tr' tdb'] [root [e|]]];
      cbn; [split; reflexivity|].
    destruct (triedb_Commit tdb' root (diskdb w)) as [[tdb'' db'] e'].
    cbn. split; reflexivity.
Qed.

End ChtProperties.

Section ChtExamples.
#[local] Existing Instance Mem.testDatabase.
#[local] Existing Instance Mem.testTrieOps.
#[local] Existing Instance Mem.testRawDB.
#[local] Existing Instance Mem.testRLP.
#[local] Existing Instance Mem.testHeaderOps.
Import ChtIndexerBackend.

Lemma ChtProcess_halts_iff_td_missing_witness :
  ((Process Mem.header0 (Mem.chtOpenWorld Mem.databaseWithTd)).1 = Panic
   <-> ReadTd (diskdb (Mem.chtOpenWorld Mem.databaseWithTd))
         (Header_Hash Mem.header0)
         (BigInt_Uint64 (Header_Number Mem.header0)) = None)
  /\ (Process Mem.header0 (Mem.chtOpenWorld Mem.databaseWithTd)).1 = Ret tt.
Proof.
  destruct (ChtProcess_halts_iff_td_missing
              (Mem.chtOpenWorld Mem.databaseWithTd) Mem.header0 ∅ eq_refl)
    as [H1 H2].
  split; [exact H1|].
  rewrite (H2 1); [reflexivity | vm_compute; reflexivity].
Defined.

(** C10, refuted as stated: section 0 is built from one header, then
    section 1 is reset and committed at once.  The commit returns no error
    and the root of section 1 is stored under the hash of that header, not
    under the zero hash. *)
Lemma ChtCommit_after_Reset_keeps_stale_head :
  (Mem.chtStaleRun (Mem.chtWorld false Mem.databaseWithTd)).1 = Ret tt
  /\ is_Some
       (Mem.cells
          (diskdb (Mem.chtStaleRun (Mem.chtWorld false Mem.databaseWithTd)).2)
          !! chtRootKey 1 Mem.hashA)
  /\ Mem.cells
       (diskdb (Mem.chtStaleRun (Mem.chtWorld false Mem.databaseWithTd)).2)
       !! chtRootKey 1 zeroHash = None
  /\ Mem.hashA <> zeroHash.
Proof.
  split; [vm_compute; reflexivity|].
  split; [vm_compute; eauto|].
  split; [vm_compute; reflexivity|].
  intros H. apply (f_equal Bytes) in H. vm_compute in H. discriminate H.
Qed.

Lemma ChtCommit_right_after_Reset_witness :
  lastHash (backend (Reset 3 Mem.hashB (Mem.chtWorld true Mem.emptyDatabase)).2) = lastHash (backend (Mem.chtWorld true Mem.emptyDatabase))
  /\ (forall clientMode : bool,
        backend (Mem.chtWorld true Mem.emptyDatabase) = ci_backend (NewChtIndexer clientMode) ->
        lastHash (backend (Reset 3 Mem.hashB (Mem.chtWorld true Mem.emptyDatabase)).2) = zeroHash)
  /\ match trie (backend (Reset 3 Mem.hashB (Mem.chtWorld true Mem.emptyDatabase)).2) with
     | None => False
     | Some tr =>
         let '((_, tdb'), (root, err)) := trie_Commit tr (triedb (backend (Mem.chtWorld true Mem.emptyDatabase))) in
         match err with
         | Some e => Commit (Reset 3 Mem.hashB (Mem.chtWorld true Mem.emptyDatabase)).2 = (Fail e, (Commit (Reset 3 Mem.hashB (Mem.chtWorld true Mem.emptyDatabase)).2).2)
                     /\ diskdb (Commit (Reset 3 Mem.hashB (Mem.chtWorld true Mem.emptyDatabase)).2).2 = diskdb (Mem.chtWorld true Mem.emptyDatabase)
         | None =>
             Commit (Reset 3 Mem.hashB (Mem.chtWorld true Mem.emptyDatabase)).2 = (Ret tt, (Commit (Reset 3 Mem.hashB (Mem.chtWorld true Mem.emptyDatabase)).2).2)
             /\ diskdb (Commit (Reset 3 Mem.hashB (Mem.chtWorld true Mem.emptyDatabase)).2).2 =
                  StoreChtRoot (triedb_Commit tdb' root (diskdb (Mem.chtWorld true Mem.emptyDatabase))).1.2
                    3 (lastHash (backend (Mem.chtWorld true Mem.emptyDatabase))) root
         end
     end.
Proof.
  apply (ChtCommit_right_after_Reset (Mem.chtWorld true Mem.emptyDatabase) 3 Mem.hashB).
  vm_compute. reflexivity.
Defined.

End ChtExamples.

(** ** The BloomTrie backend: [Reset] and [Process] *)

Section BloomProperties.
Context {D T TDB Header : Type}.
Context `{!Database D, !TrieOps T TDB D, !RawDB D, !Bitutil, !HeaderOps Header}.
Import BloomTrieIndexerBackend.

#[local] Abbreviation BW := (World (t T TDB) D).

Lemma NewBloomTrieIndexer_built (clientMode : bool) :
  built clientMode (ci_backend (NewBloomTrieIndexer (T := T) clientMode)).
Proof. destruct clientMode; repeat split. Qed.

(** What [Reset] leaves behind, error or not. *)
Lemma BloomReset_spec (w : BW) (s : Z) (head : Hash) :
  let root := if 0 <? s then GetBloomTrieRoot (diskdb w) (u64 (s - 1)) head
              else zeroHash in
  let b := backend w in
  Reset s head w =
    match trie_New root (triedb b) (diskdb w) with
    | inl tr =>
        (Ret tt,
         mkWorld (mk (triedb b) s (parentSectionSize b) (bloomTrieRatio b)
                    (Some tr) (sectionHeads b))
           (diskdb w) (logs w))
    | inr e =>
        (Fail e,
         mkWorld (mk (triedb b) s (parentSectionSize b) (bloomTrieRatio b)
                    None (sectionHeads b))
           (diskdb w) (logs w))
    end.
Proof.
  cbv zeta. unfold Reset. unfold_M. cbn.
  destruct (trie_New _ _ _); reflexivity.
Qed.

(** C2, as the code has it. [Reset] does not touch [sectionHeads]: after
    the call the slots hold what they held before, and on a backend built by
    [NewBloomTrieIndexer] the array still has its length [bloomTrieRatio] =
    [BloomTrieFrequency / parentSectionSize].  [Reset] records the section
    and opens the trie at the root stored for the previous section under
    the given head (at the zero root for section 0), returning the error of
    the opening if there is one. *)
Theorem BloomReset_keeps_sectionHeads
    (clientMode : bool) (w : BW) (s : Z) (head : Hash) :
  built clientMode (backend w) ->
  let w1 := (Reset s head w).2 in
  let root := if 0 <? s then GetBloomTrieRoot (diskdb w) (u64 (s - 1)) head
              else zeroHash in
  sectionHeads (backend w1) = sectionHeads (backend w)
  /\ Z.of_nat (length (sectionHeads (backend w1))) = bloomTrieRatio (backend w1)
  /\ bloomTrieRatio (backend w1)
     = BloomTrieFrequency / parentSectionSize (backend w1)
  /\ section (backend w1) = s
  /\ match trie_New root (triedb (backend w)) (diskdb w) with
     | inl tr => (Reset s head w).1 = Ret tt /\ trie (backend w1) = Some tr
     | inr e => (Reset s head w).1 = Fail e /\ trie (backend w1) = None
     end.
Proof.
  intros (Hp & Hr & Hl). cbv zeta. rewrite BloomReset_spec. cbv zeta.
  destruct (trie_New _ _ _); cbn; repeat split; assumption.
Qed.

Lemma BloomReset_built (clientMode : bool) (w : BW) (s : Z) (head : Hash) :
  built clientMode (backend w) ->
  built clientMode (backend (Reset s head w).2).
Proof.
  intros (Hp & Hr & Hl). rewrite BloomReset_spec. cbv zeta.
  destruct (trie_New _ _ _); cbn; repeat split; assumption.
Qed.

(** C8, as the code has it. For a header of the backend's section, with
    [offset] its block number minus [section * 32768], [Process] returns
    normally; it writes the header hash into slot
    [offset / parentSectionSize] exactly when
    [(offset + 1) mod parentSectionSize = 0], and changes nothing otherwise.
    The divisor is [parentSectionSize]: 4096 on a server, 32768 on a
    client. *)
Theorem BloomProcess_records_subsection_head
    (clientMode : bool) (w : BW) (header : Header) :
  built clientMode (backend w) ->
  let b := backend w in
  let size := if clientMode then BloomTrieFrequency else ethBloomBitsSection in
  let offset :=
    u64 (BigInt_Uint64 (Header_Number header) - u64 (section b * BloomTrieFrequency)) in
  offset < BloomTrieFrequency ->
  parentSectionSize b = size
  /\ (Z.to_nat (offset / size) < length (sectionHeads b))%nat
  /\ Process header w =
       (Ret tt,
        if (offset + 1) mod size =? 0
        then set_backend w
               (set_sectionHeads b
                  (<[Z.to_nat (offset / size) := Header_Hash header]>
                     (sectionHeads b)))
        else w).
Proof.
  intros (Hp & Hr & Hl). cbv zeta. intros Hoff.
  set (offset := u64 (_ - _)) in *.
  assert (H0 : 0 <= offset) by apply is_u64_u64.
  set (size := if clientMode then _ else _).
  assert (Hs : parentSectionSize (backend w) = size) by exact Hp.
  assert (Hsize : size = 32768 /\ bloomTrieRatio (backend w) = 1
                  \/ size = 4096 /\ bloomTrieRatio (backend w) = 8).
  { rewrite Hr, Hs. unfold size. destruct clientMode; [left|right];
      split; reflexivity. }
  unfold BloomTrieFrequency in Hoff.
  assert (Hslot : 0 <= offset / size < bloomTrieRatio (backend w)).
  { destruct Hsize as [[-> ->]|[-> ->]]; split;
      try (apply Z.div_pos; lia); apply Z.div_lt_upper_bound; lia. }
  split; [exact Hs|]. split; [lia|].
  unfold Process. unfold_M. cbn.
  fold offset. rewrite Hs.
  replace (size =? 0) with false
    by (symmetry; apply Z.eqb_neq; destruct Hsize as [[-> _]|[-> _]]; lia).
  replace (u64 (offset + 1)) with (offset + 1)
    by (symmetry; apply u64_id; unfold is_u64; lia).
  destruct ((offset + 1) mod size =? 0); [|destruct w; reflexivity].
  unfold index.
  replace ((0 <=? offset / size)
           && (offset / size <? Z.of_nat (length (sectionHeads (backend w)))))
    with true by (symmetry; apply andb_true_iff; split;
                  [apply Z.leb_le | apply Z.ltb_lt]; lia).
  destruct (sectionHeads (backend w) !! Z.to_nat (offset / size)) eqn:E;
    [reflexivity|].
  apply lookup_ge_None_1 in E. lia.
Qed.

Lemma BloomProcess_built (clientMode : bool) (w : BW) (header : Header) :
  built clientMode (backend w) ->
  built clientMode (backend (Process header w).2).
Proof.
  intros (Hp & Hr & Hl).
  unfold Process. unfold_M. cbn.
  destruct (parentSectionSize (backend w) =? 0); [repeat split; assumption|].
  destruct (_ mod _ =? 0); [|repeat split; assumption].
  destruct (index _ _); [|repeat split; assumption].
  unfold built. cbn. rewrite length_insert. repeat split; assumption.
Qed.

(** A backend built by [NewBloomTrieIndexer] is ready for [Commit] once a
    [Reset] has returned no error, and [Process] keeps it so. *)
Lemma BloomReset_ready (clientMode : bool) (w : BW) (s : Z) (head : Hash) :
  built clientMode (backend w) ->
  (Reset s head w).1 = Ret tt ->
  ready (backend (Reset s head w).2).
Proof.
  intros (Hp & Hr & Hl). rewrite BloomReset_spec. cbv zeta.
  destruct (trie_New _ _ _); cbn; [intros _|discriminate].
  split; [eexists; reflexivity | exact Hl].
Qed.

Lemma BloomProcess_ready (w : BW) (header : Header) :
  ready (backend w) -> ready (backend (Process header w).2).
Proof.
  intros [Ht Hl]. unfold Process. unfold_M. cbn.
  destruct (parentSectionSize (backend w) =? 0); [split; assumption|].
  destruct (_ mod _ =? 0); [|split; assumption].
  destruct (index _ _); [|split; assumption].
  unfold ready. cbn. rewrite length_insert. split; assumption.
Qed.

End BloomProperties.

Section BloomExamples.
#[local] Existing Instance Mem.testDatabase.
#[local] Existing Instance Mem.testTrieOps.
#[local] Existing Instance Mem.testRawDB.
#[local] Existing Instance Mem.testBitutil.
#[local] Existing Instance Mem.testHeaderOps.
Import BloomTrieIndexerBackend.

(** C2, refuted as stated: on a server backend the last header of the
    first sub-section of section 0 is processed, then the backend is reset
    for section 1.  After that [Reset], slot 0 still holds the hash of the
    header: the scratch array was not cleared. *)
Lemma BloomReset_leaves_slots_filled :
  (Mem.bloomResetRun (Mem.bloomWorld false Mem.emptyDatabase)).1 = Ret tt
  /\ sectionHeads
       (backend (Mem.bloomResetRun (Mem.bloomWorld false Mem.emptyDatabase)).2)
     = Mem.hashA :: replicate 7 zeroHash
  /\ Mem.hashA <> zeroHash.
Proof.
  split; [vm_compute; reflexivity|].
  split; [vm_compute; reflexivity|].
  intros H. apply (f_equal Bytes) in H. vm_compute in H. discriminate H.
Qed.

(** C8, refuted as stated: on a client backend, block 4095 of section 0 has
    [(offset + 1) mod 4096 = 0], yet [Process] records nothing. *)
Lemma BloomProcess_client_ignores_4096_boundary :
  (Mem.number Mem.header4095 - 0 * 32768 + 1) mod 4096 = 0
  /\ Process Mem.header4095 (Mem.bloomWorld true Mem.emptyDatabase)
     = (Ret tt, Mem.bloomWorld true Mem.emptyDatabase)
  /\ sectionHeads (backend (Mem.bloomWorld true Mem.emptyDatabase)) = [zeroHash]
  /\ Header_Hash Mem.header4095 <> zeroHash.
Proof.
  split; [reflexivity|].
  split; [reflexivity|].
  split; [reflexivity|].
  intros H. apply (f_equal Bytes) in H. vm_compute in H. discriminate H.
Qed.

Lemma BloomReset_keeps_sectionHeads_witness :
  sectionHeads
    (backend (Reset 1 Mem.hashA (Mem.bloomWorld false Mem.emptyDatabase)).2)
  = sectionHeads (backend (Mem.bloomWorld false Mem.emptyDatabase))
  /\ Z.of_nat
       (length
          (sectionHeads
             (backend
                (Reset 1 Mem.hashA (Mem.bloomWorld false Mem.emptyDatabase)).2)))
     = 8.
Proof.
  destruct (BloomReset_keeps_sectionHeads false
              (Mem.bloomWorld false Mem.emptyDatabase) 1 Mem.hashA)
    as (H1 & H2 & _).
  - repeat split.
  - split; [exact H1 | exact H2].
Defined.

Lemma BloomProcess_records_subsection_head_witness :
  Process Mem.header4095 (Mem.bloomWorld false Mem.emptyDatabase)
  = (Ret tt,
     set_backend (Mem.bloomWorld false Mem.emptyDatabase)
       (set_sectionHeads (backend (Mem.bloomWorld false Mem.emptyDatabase))
          (<[0%nat := Mem.hashA]>
             (sectionHeads (backend (Mem.bloomWorld false Mem.emptyDatabase)))))).
Proof.
  destruct (BloomProcess_records_subsection_head false
              (Mem.bloomWorld false Mem.emptyDatabase) Mem.header4095)
    as (_ & _ & H).
  - repeat split.
  - vm_compute. reflexivity.
  - exact H.
Defined.

End BloomExamples.

(** ** The BloomTrie backend: [Commit] *)

Section BloomCommitProperties.
Context {D T TDB : Type}.
Context `{!Database D, !TrieOps T TDB D, !RawDB D, !Bitutil}.
Import BloomTrieIndexerBackend.

#[local] Abbreviation BW := (World (t T TDB) D).

(** The world [w] with the trie of its backend replaced. *)
#[local] Abbreviation with_trie w tr :=
  (set_backend w (set_trie (backend w) (Some tr))).

Lemma with_trie_id (w : BW) (tr : T) :
  trie (backend w) = Some tr -> with_trie w tr = w.
Proof. destruct w as [[] ? ?]. cbn. intros ->. reflexivity. Qed.

(** One turn of the inner loop. *)
Lemma readSubSections_step (n : nat) (i j : Z) (acc : list byte) (w : BW) :
  readSubSections (S n) i j acc w =
    match subVector (backend w) (diskdb w) i j with
    | Ret dd => readSubSections n i (j + 1) (acc ++ dd) w
    | Fail e => (Fail e, w)
    | Panic => (Panic, w)
    end.
Proof.
  cbn [readSubSections]. unfold subVector. unfold_M. cbn.
  destruct (index _ _); [|reflexivity].
  destruct (ReadBloomBits _ _ _ _) as [data [e|]]; [reflexivity|].
  destruct (DecompressBytes _ _) as [dd [e|]]; reflexivity.
Qed.

Lemma subVector_not_Panic (b : t T TDB) (db : D) (i j : Z) :
  0 <= j < Z.of_nat (length (sectionHeads b)) -> subVector b db i j <> Panic.
Proof.
  intros Hj. unfold subVector, index.
  replace ((0 <=? j) && (j <? Z.of_nat (length (sectionHeads b)))) with true
    by (symmetry; apply andb_true_iff; split;
        [apply Z.leb_le | apply Z.ltb_lt]; lia).
  destruct (sectionHeads b !! Z.to_nat j) eqn:E.
  - destruct (ReadBloomBits _ _ _ _) as [data [e|]]; [discriminate|].
    destruct (DecompressBytes _ _) as [dd [e|]]; discriminate.
  - apply lookup_ge_None_1 in E. lia.
Qed.

Lemma columnFrom_S (b : t T TDB) (db : D) (i j0 : Z) (n : nat) :
  columnFrom b db i j0 (S n)
  = vectorOr (subVector b db i j0) ++ columnFrom b db i (j0 + 1) n.
Proof.
  unfold columnFrom. rewrite Nat2Z.inj_succ, seqZ_cons by lia.
  replace (Z.pred (Z.succ (Z.of_nat n))) with (Z.of_nat n) by lia.
  replace (Z.succ j0) with (j0 + 1) by lia. reflexivity.
Qed.

(** The inner loop never touches the world.  It returns the concatenated
    vectors when every read goes through, and the error of the first read
    that does not. *)
Lemma readSubSections_spec (w : BW) (i : Z) (n : nat) :
  forall (j0 : Z) (acc : list byte),
    0 <= j0 ->
    j0 + Z.of_nat n <= Z.of_nat (length (sectionHeads (backend w))) ->
    ((forall j, j0 <= j < j0 + Z.of_nat n ->
         exists d, subVector (backend w) (diskdb w) i j = Ret d)
     /\ readSubSections n i j0 acc w
        = (Ret (acc ++ columnFrom (backend w) (diskdb w) i j0 n), w))
    \/
    (exists j e,
        j0 <= j < j0 + Z.of_nat n
        /\ subVector (backend w) (diskdb w) i j = Fail e
        /\ (forall j', j0 <= j' < j ->
              exists d, subVector (backend w) (diskdb w) i j' = Ret d)
        /\ readSubSections n i j0 acc w = (Fail e, w)).
Proof.
  induction n as [|n IH]; intros j0 acc Hj0 Hlen.
  - left. split; [intros j Hj; lia|].
    cbn. unfold columnFrom. cbn. rewrite app_nil_r. reflexivity.
  - rewrite readSubSections_step.
    pose proof (subVector_not_Panic (backend w) (diskdb w) i j0) as Hnp.
    destruct (subVector (backend w) (diskdb w) i j0) as [dd|e|] eqn:E.
    + destruct (IH (j0 + 1) (acc ++ dd)) as [[Hall Hr]|(j & e & Hj & Hf & Hb & Hr)];
        [lia | lia | |].
      * left. split.
        -- intros j Hj. destruct (decide (j = j0)) as [->|]; [eauto|].
           apply Hall. lia.
        -- rewrite Hr, columnFrom_S, E. cbn. rewrite <- app_assoc. reflexivity.
      * right. exists j, e. repeat split; try lia; try assumption.
        intros j' Hj'. destruct (decide (j' = j0)) as [->|]; [eauto|].
        apply Hb. lia.
    + right. exists j0, e. repeat split; try lia; try assumption.
    + exfalso. apply Hnp; [lia | reflexivity].
Qed.

(** The values the commit loop reads from the backend do not depend on its
    trie. *)
Lemma subVector_set_trie (b : t T TDB) (x : option T) (db : D) (i j : Z) :
  subVector (set_trie b x) db i j = subVector b db i j.
Proof. reflexivity. Qed.

Lemma columnFrom_set_trie (b : t T TDB) (x : option T) (db : D) (i j : Z) n :
  columnFrom (set_trie b x) db i j n = columnFrom b db i j n.
Proof. reflexivity. Qed.

(** One turn of the outer loop. *)
Lemma commitBits_step (n : nat) (i cs ds : Z) (w : BW) :
  commitBits (S n) i cs ds w =
    match readSubSections (Z.to_nat (bloomTrieRatio (backend w))) i 0 [] w with
    | (Ret decomp, w') =>
        let comp := CompressBytes decomp in
        match trie (backend w') with
        | None => (Panic, w')
        | Some tr =>
            commitBits n (i + 1)
              (u64 (cs + Z.of_nat (length comp)))
              (u64 (ds + Z.of_nat (length decomp)))
              (set_backend w'
                 (set_trie (backend w')
                    (Some (if 0 <? Z.of_nat (length comp)
                           then trie_Update tr (encKey i (section (backend w))) comp
                           else trie_Delete tr (encKey i (section (backend w)))))))
        end
    | (Fail e, w') => (Fail e, w')
    | (Panic, w') => (Panic, w')
    end.
Proof.
  cbn [commitBits]. unfold_M. cbn.
  destruct (readSubSections _ _ _ _ _) as [[decomp|e|] w']; try reflexivity.
  destruct (trie (backend w')); reflexivity.
Qed.

Lemma bitStep_test (b : t T TDB) (db : D) (tr : T) (i : Z) :
  (if 0 <? Z.of_nat (length (column b db i))
   then trie_Update tr (encKey i (section b)) (column b db i)
   else trie_Delete tr (encKey i (section b)))
  = bitStep b db tr i.
Proof. unfold bitStep. destruct (column b db i); reflexivity. Qed.

(** The commit loop over the bits [i0 .. i0+n-1], started on a world whose
    trie is [tr]: either every read goes through and the loop ends with the
    trie stepped through all these bits, or it stops at the first read that
    fails, with that error, the trie stepped through the bits before. The
    store and the log stay as they were. *)
Lemma commitBits_spec (w : BW) :
  Z.of_nat (length (sectionHeads (backend w))) = bloomTrieRatio (backend w) ->
  forall (n : nat) (i0 cs ds : Z) (tr : T),
    ((forall i, i0 <= i < i0 + Z.of_nat n -> readsOK (backend w) (diskdb w) i)
     /\ exists cs' ds',
         commitBits n i0 cs ds (with_trie w tr)
         = (Ret (cs', ds'),
            with_trie w (bitSteps (backend w) (diskdb w) tr
                           (seqZ i0 (Z.of_nat n)))))
    \/
    (exists i j e,
        i0 <= i < i0 + Z.of_nat n
        /\ 0 <= j < bloomTrieRatio (backend w)
        /\ subVector (backend w) (diskdb w) i j = Fail e
        /\ (forall j', 0 <= j' < j ->
              exists d, subVector (backend w) (diskdb w) i j' = Ret d)
        /\ (forall i', i0 <= i' < i -> readsOK (backend w) (diskdb w) i')
        /\ commitBits n i0 cs ds (with_trie w tr)
           = (Fail e,
              with_trie w (bitSteps (backend w) (diskdb w) tr
                             (seqZ i0 (i - i0))))).
Proof.
  intros Hlen. induction n as [|n IH]; intros i0 cs ds tr.
  - left. split; [intros i Hi; lia|]. exists cs, ds. reflexivity.
  - rewrite commitBits_step.
    cbn [backend set_backend bloomTrieRatio set_trie].
    destruct (readSubSections_spec (with_trie w tr) i0
                (Z.to_nat (bloomTrieRatio (backend w))) 0 [])
      as [[Hall Hr]|(j & e & Hj & Hf & Hb & Hr)];
      [lia | cbn; lia | |].
    + rewrite Hr. cbn [app backend set_backend trie set_trie diskdb].
      change (columnFrom (set_trie (backend w) (Some tr)) (diskdb w) i0 0
                (Z.to_nat (bloomTrieRatio (backend w))))
        with (columnFrom (backend w) (diskdb w) i0 0
                (Z.to_nat (bloomTrieRatio (backend w)))).
      cbv zeta. fold (column (backend w) (diskdb w) i0).
      change (section (set_trie (backend w) (Some tr)))
        with (section (backend w)).
      rewrite bitStep_test.
      assert (Hok0 : readsOK (backend w) (diskdb w) i0).
      { intros j Hj. apply (Hall j). lia. }
      set (tr1 := bitStep (backend w) (diskdb w) tr i0).
      change (set_backend (with_trie w tr)
                (set_trie (set_trie (backend w) (Some tr)) (Some tr1)))
        with (with_trie w tr1).
      destruct (IH (i0 + 1)
                  (u64 (cs + Z.of_nat (length (column (backend w) (diskdb w) i0))))
                  (u64 (ds + Z.of_nat
                          (length (columnFrom (backend w) (diskdb w) i0 0
                                     (Z.to_nat (bloomTrieRatio (backend w)))))))
                  tr1)
        as [[HallI (cs' & ds' & HrI)]|(i & j & e & Hi & Hj & Hf & Hb & Hbi & HrI)].
      * left. split.
        -- intros i Hi. destruct (decide (i = i0)) as [->|]; [exact Hok0|].
           apply HallI. lia.
        -- exists cs', ds'. rewrite HrI. do 3 f_equal.
           rewrite Nat2Z.inj_succ, (seqZ_cons i0) by lia.
           replace (Z.pred (Z.succ (Z.of_nat n))) with (Z.of_nat n) by lia.
           replace (Z.succ i0) with (i0 + 1) by lia. reflexivity.
      * right. exists i, j, e. repeat split; try lia; try assumption.
        -- intros i' Hi'. destruct (decide (i' = i0)) as [->|]; [exact Hok0|].
           apply Hbi. lia.
        -- rewrite HrI. do 3 f_equal.
           rewrite (seqZ_cons i0) by lia.
           replace (Z.pred (i - i0)) with (i - (i0 + 1)) by lia.
           replace (Z.succ i0) with (i0 + 1) by lia. reflexivity.
    + rewrite Hr. right. exists i0, j, e.
      repeat split; try lia; try assumption.
      rewrite Z.sub_diag. reflexivity.
Qed.

(** Whatever happens in [Commit] after the loop, the loop has left the
    store and the log alone. *)
Lemma Commit_after_failed_loop (w w' : BW) (e : error) :
  commitBits (Z.to_nat BloomBitLength) 0 0 0 w = (Fail e, w') ->
  Commit w = (Fail e, w').
Proof. intros E. unfold Commit, mbind, M_bind. rewrite E. reflexivity. Qed.

(** C6. On a backend that holds an open trie and one scratch slot per
    sub-section: if any read of a bloom-bits vector or any decompression
    fails, [Commit] returns the error of the first one that fails, and the
    store (so the section roots in it) and the log are what they were
    before the call. *)
Theorem BloomCommit_read_failure (w : BW) :
  ready (backend w) ->
  (exists i j e,
      0 <= i < BloomBitLength /\ 0 <= j < bloomTrieRatio (backend w)
      /\ subVector (backend w) (diskdb w) i j = Fail e) ->
  exists i j e,
    firstFailure (backend w) (diskdb w) i j e
    /\ Commit w = (Fail e, (Commit w).2)
    /\ diskdb (Commit w).2 = diskdb w
    /\ logs (Commit w).2 = logs w.
Proof.
  intros [[tr Htr] Hlen] (i & j & e & Hi & Hj & Hf).
  destruct (commitBits_spec w Hlen (Z.to_nat BloomBitLength) 0 0 0 tr)
    as [[Hall _]|(i1 & j1 & e1 & Hi1 & Hj1 & Hf1 & Hb1 & Hbi1 & Hr)].
  - exfalso. destruct (Hall i ltac:(lia) j Hj) as [d Hd]. congruence.
  - rewrite (with_trie_id w tr Htr) in Hr.
    apply Commit_after_failed_loop in Hr.
    exists i1, j1, e1. rewrite Hr. cbn.
    unfold firstFailure. unfold BloomBitLength in *.
    repeat split; try lia; try assumption.
Qed.

(** The key of a bit determines the bit. *)
Lemma encKey_inj (i i' s : Z) :
  0 <= i < 65536 -> 0 <= i' < 65536 -> encKey i s = encKey i' s -> i = i'.
Proof.
  intros Hi Hi' HK. unfold encKey in HK.
  apply app_inj_1 in HK as [HK _]; [|reflexivity].
  apply PutUint16_inj in HK. unfold u16 in HK.
  change (2 ^ 16) with 65536 in HK.
  rewrite !Zmod_mod, !Z.mod_small in HK by lia. exact HK.
Qed.

Section Leaves.
Context (trie_Get : T -> list byte -> list byte).
Context `{!TrieLaws T TDB D trie_Get}.

Lemma bitStep_get_eq (b : t T TDB) (db : D) (tr : T) (i : Z) :
  trie_Get (bitStep b db tr i) (encKey i (section b)) = column b db i.
Proof.
  unfold bitStep. destruct (column b db i).
  - apply Get_Delete_eq.
  - apply Get_Update_eq.
Qed.

Lemma bitStep_get_ne (b : t T TDB) (db : D) (tr : T) (i i' : Z) :
  0 <= i < 65536 -> 0 <= i' < 65536 -> i <> i' ->
  trie_Get (bitStep b db tr i') (encKey i (section b))
  = trie_Get tr (encKey i (section b)).
Proof.
  intros Hi Hi' Hne.
  assert (Hk : encKey i' (section b) <> encKey i (section b)).
  { intros HK. apply encKey_inj in HK; [congruence | lia | lia]. }
  unfold bitStep. destruct (column b db i').
  - apply Get_Delete_ne, Hk.
  - apply Get_Update_ne, Hk.
Qed.

Lemma bitSteps_get_other (b : t T TDB) (db : D) (bits : list Z) :
  forall (tr : T) (i : Z),
    Forall (fun x => 0 <= x < 65536) bits -> 0 <= i < 65536 -> i ∉ bits ->
    trie_Get (bitSteps b db tr bits) (encKey i (section b))
    = trie_Get tr (encKey i (section b)).
Proof.
  induction bits as [|x bits IH]; intros tr i Hr Hi Hnot; [reflexivity|].
  inversion Hr; subst.
  apply not_elem_of_cons in Hnot as [Hne Hnot].
  change (bitSteps b db tr (x :: bits))
    with (bitSteps b db (bitStep b db tr x) bits).
  rewrite IH by assumption.
  apply bitStep_get_ne; assumption.
Qed.

(** After the loop, the leaf of every bit it ran over is the column of
    that bit: later bits do not write to the key of an earlier one. *)
Lemma bitSteps_get (b : t T TDB) (db : D) (bits : list Z) :
  forall (tr : T) (i : Z),
    Forall (fun x => 0 <= x < 65536) bits -> i ∈ bits ->
    trie_Get (bitSteps b db tr bits) (encKey i (section b)) = column b db i.
Proof.
  induction bits as [|x bits IH]; intros tr i Hr Hin;
    [apply elem_of_nil in Hin; contradiction|].
  inversion Hr as [|? ? Hx Hr']; subst.
  assert (Hi : 0 <= i < 65536).
  { rewrite Forall_forall in Hr. apply Hr. exact Hin. }
  change (bitSteps b db tr (x :: bits))
    with (bitSteps b db (bitStep b db tr x) bits).
  destruct (decide (i ∈ bits)) as [Hi'|Hi'].
  - apply IH; assumption.
  - apply elem_of_cons in Hin as [->|Hin]; [|contradiction].
    rewrite bitSteps_get_other by assumption.
    apply bitStep_get_eq.
Qed.

(** C7. On a backend with an open trie and one scratch slot per
    sub-section, when every read and decompression goes through, the loop
    of [Commit] ends normally, having stepped the trie through the bit
    positions 0..2047 in order; that trie is the one [Commit] then
    commits.  In it the leaf under the key (2-byte big-endian bit, 8-byte
    big-endian section) holds the compressed column of the bit when that
    column is non-empty, and is absent when the column is empty: the step
    for a bit inserts in the first case and deletes in the second. *)
Theorem BloomCommit_leaves (w : BW) (tr : T) :
  trie (backend w) = Some tr ->
  Z.of_nat (length (sectionHeads (backend w))) = bloomTrieRatio (backend w) ->
  (forall i, 0 <= i < BloomBitLength -> readsOK (backend w) (diskdb w) i) ->
  let b := backend w in
  let tr' := bitSteps b (diskdb w) tr (seqZ 0 BloomBitLength) in
  (exists cs ds,
      commitBits (Z.to_nat BloomBitLength) 0 0 0 w
      = (Ret (cs, ds), set_backend w (set_trie b (Some tr'))))
  /\ trie (backend (Commit w).2) = Some (trie_Commit tr' (triedb b)).1.1
  /\ forall i, 0 <= i < BloomBitLength ->
       let key := BigEndian.PutUint16 i ++ BigEndian.PutUint64 (section b) in
       let comp := column b (diskdb w) i in
       (comp <> [] ->
        (forall t, bitStep b (diskdb w) t i = trie_Update t key comp)
        /\ trie_Get tr' key = comp)
       /\ (comp = [] ->
           (forall t, bitStep b (diskdb w) t i = trie_Delete t key)
           /\ trie_Get tr' key = []).
Proof.
  intros Htr Hlen Hall. cbv zeta.
  destruct (commitBits_spec w Hlen (Z.to_nat BloomBitLength) 0 0 0 tr)
    as [[_ (cs & ds & Hr)]|(i1 & j1 & e1 & Hi1 & Hj1 & Hf1 & _)].
  2:{ exfalso.
      assert (Hi1' : 0 <= i1 < BloomBitLength)
        by (unfold BloomBitLength in *; lia).
      destruct (Hall i1 Hi1' j1 Hj1) as [d Hd]. congruence. }
  rewrite (with_trie_id w tr Htr) in Hr.
  change (Z.of_nat (Z.to_nat BloomBitLength)) with BloomBitLength in Hr.
  set (tr' := bitSteps (backend w) (diskdb w) tr (seqZ 0 BloomBitLength)) in *.
  split; [exists cs, ds; exact Hr|]. split.
  - unfold Commit, mbind, M_bind. rewrite Hr.
    unfold get, put, fail, panic. cbn.
    destruct (trie_Commit tr' (triedb (backend w))) as [[tr'' tdb'] [root [e|]]];
      cbn; [reflexivity|].
    destruct (triedb_Commit tdb' root (diskdb w)) as [[tdb'' db'] e'].
    cbn. destruct (index _ _); reflexivity.
  - intros i Hi.
    assert (Hu : u16 i = i).
    { unfold u16. apply Z.mod_small. unfold BloomBitLength in Hi.
      change (2 ^ 16) with 65536. lia. }
    assert (Hk : BigEndian.PutUint16 i
                   ++ BigEndian.PutUint64 (section (backend w))
                 = encKey i (section (backend w))).
    { unfold encKey. rewrite Hu. reflexivity. }
    rewrite Hk.
    assert (Hget : trie_Get tr' (encKey i (section (backend w)))
                   = column (backend w) (diskdb w) i).
    { apply bitSteps_get.
      - apply Forall_forall. intros x Hx. apply elem_of_seqZ in Hx.
        unfold BloomBitLength in Hx. lia.
      - apply elem_of_seqZ. lia. }
    split.
    + intros Hne. split; [|exact Hget].
      intros t0. unfold bitStep.
      destruct (column (backend w) (diskdb w) i); [congruence|reflexivity].
    + intros He. split; [|rewrite Hget; exact He].
      intros t0. unfold bitStep. rewrite He. reflexivity.
Qed.

End Leaves.

End BloomCommitProperties.

(** The in-memory trie is a map from keys to values. *)
Lemma testTrie_laws :
  @TrieLaws Mem.TestTrie Mem.TestTrieDB Mem.TestDatabase Mem.testTrieOps
    Mem.testTrieGet.
Proof.
  split; cbn [trie_Update trie_Delete Mem.testTrieOps];
    unfold Mem.testTrieGet, Mem.TestTrie.
  - intros t k v. destruct v.
    + rewrite lookup_delete_eq. reflexivity.
    + rewrite lookup_insert_eq. reflexivity.
  - intros t k v k' Hne. destruct v.
    + rewrite lookup_delete_ne by exact Hne. reflexivity.
    + rewrite lookup_insert_ne by exact Hne. reflexivity.
  - intros t k. rewrite lookup_delete_eq. reflexivity.
  - intros t k k' Hne. rewrite lookup_delete_ne by exact Hne. reflexivity.
Qed.

Section BloomCommitExamples.
#[local] Existing Instance testTrie_laws.
#[local] Existing Instance Mem.testDatabase.
#[local] Existing Instance Mem.testTrieOps.
#[local] Existing Instance Mem.testRawDB.
#[local] Existing Instance Mem.testBitutil.
#[local] Existing Instance Mem.testHeaderOps.
Import BloomTrieIndexerBackend.

Lemma BloomCommit_read_failure_witness :
  exists i j e,
    firstFailure (backend (Mem.bloomOpenWorld false Mem.emptyDatabase))
      (diskdb (Mem.bloomOpenWorld false Mem.emptyDatabase)) i j e
    /\ Commit (Mem.bloomOpenWorld false Mem.emptyDatabase)
       = (Fail e, (Commit (Mem.bloomOpenWorld false Mem.emptyDatabase)).2)
    /\ diskdb (Commit (Mem.bloomOpenWorld false Mem.emptyDatabase)).2
       = diskdb (Mem.bloomOpenWorld false Mem.emptyDatabase)
    /\ logs (Commit (Mem.bloomOpenWorld false Mem.emptyDatabase)).2
       = logs (Mem.bloomOpenWorld false Mem.emptyDatabase).
Proof.
  apply (BloomCommit_read_failure (Mem.bloomOpenWorld false Mem.emptyDatabase)).
  - split; [exists ∅; reflexivity | reflexivity].
  - exists 0, 0, Mem.errNotFound.
    split; [unfold BloomBitLength; lia|].
    split; [split; [lia | reflexivity]|].
    vm_compute. reflexivity.
Defined.

Lemma bloomBitsDatabase_readsOK (i : Z) :
  0 <= i < BloomBitLength ->
  readsOK (backend (Mem.bloomOpenWorld true Mem.bloomBitsDatabase))
    (diskdb (Mem.bloomOpenWorld true Mem.bloomBitsDatabase)) i.
Proof.
  intros Hi j Hj.
  assert (j = 0) by (change (0 <= j < 1) in Hj; lia). subst j.
  assert (Hall :
    forallb
      (fun i =>
         match subVector (backend (Mem.bloomOpenWorld true Mem.bloomBitsDatabase))
                 (diskdb (Mem.bloomOpenWorld true Mem.bloomBitsDatabase)) i 0
         with Ret _ => true | _ => false end)
      (seqZ 0 BloomBitLength) = true) by (vm_compute; reflexivity).
  rewrite forallb_forall in Hall.
  specialize (Hall i). rewrite <- list_elem_of_In, elem_of_seqZ in Hall.
  specialize (Hall ltac:(lia)).
  destruct (subVector _ _ i 0) as [d| |]; [eauto | discriminate | discriminate].
Defined.

(** A whole commit on the client: the loop runs over the 2048 bits, the trie
    is committed and the root is stored for section 0 under the zero head. *)
Example BloomCommit_runs :
  (Commit (Mem.bloomOpenWorld true Mem.bloomBitsDatabase)).1 = Ret tt
  /\ is_Some
       (Mem.cells (diskdb (Commit (Mem.bloomOpenWorld true Mem.bloomBitsDatabase)).2)
          !! bloomTrieRootKey 0 zeroHash)
  /\ length (logs (Commit (Mem.bloomOpenWorld true Mem.bloomBitsDatabase)).2)
     = 1%nat.
Proof.
  split; [vm_compute; reflexivity|].
  split; [vm_compute; eauto | vm_compute; reflexivity].
Qed.

Lemma BloomCommit_leaves_witness :
  (exists cs ds,
      commitBits (Z.to_nat BloomBitLength) 0 0 0 (Mem.bloomOpenWorld true Mem.bloomBitsDatabase)
      = (Ret (cs, ds),
         set_backend (Mem.bloomOpenWorld true Mem.bloomBitsDatabase)
           (set_trie (backend (Mem.bloomOpenWorld true Mem.bloomBitsDatabase))
              (Some (bitSteps (backend (Mem.bloomOpenWorld true Mem.bloomBitsDatabase)) (diskdb (Mem.bloomOpenWorld true Mem.bloomBitsDatabase)) ∅ (seqZ 0 BloomBitLength))))))
  /\ Mem.testTrieGet
       (bitSteps (backend (Mem.bloomOpenWorld true Mem.bloomBitsDatabase)) (diskdb (Mem.bloomOpenWorld true Mem.bloomBitsDatabase)) ∅ (seqZ 0 BloomBitLength))
       (BigEndian.PutUint16 7 ++ BigEndian.PutUint64 (section (backend (Mem.bloomOpenWorld true Mem.bloomBitsDatabase))))
     = column (backend (Mem.bloomOpenWorld true Mem.bloomBitsDatabase)) (diskdb (Mem.bloomOpenWorld true Mem.bloomBitsDatabase)) 7.
Proof.
  destruct (BloomCommit_leaves Mem.testTrieGet (Mem.bloomOpenWorld true Mem.bloomBitsDatabase) ∅ eq_refl eq_refl
              bloomBitsDatabase_readsOK) as (H1 & _ & H3).
  split; [exact H1|].
  destruct (H3 7) as [Hne _]; [unfold BloomBitLength; lia|].
  apply Hne. vm_compute. discriminate.
Defined.

End BloomCommitExamples.

(** * Further properties *)

(** ** The section root store over a history of writes *)

Section RootStoreHistoryProperties.
Context {D : Type} `{!Database D}.

(** X1. A key of the root store is 48 bytes long (prefix, section, head),
    and two keys are equal exactly when they are of the same kind, for the
    same section modulo 2^64 and the same head. *)
Theorem root_keys_separate (k k' : Kind) (s s' : Z) (h h' : Hash) :
  length (rootKey k s h) = 48%nat
  /\ (rootKey k s h = rootKey k' s' h'
      <-> k = k' /\ u64 s = u64 s' /\ h = h').
Proof.
  split.
  - destruct k; cbn [rootKey]; unfold chtRootKey, bloomTrieRootKey, Bytes;
      rewrite !length_app, length_vec_to_list; reflexivity.
  - split; [apply rootKey_inj|].
    intros (-> & Hs & ->).
    destruct k'; cbn [rootKey]; unfold chtRootKey, bloomTrieRootKey;
      rewrite (PutUint64_congr s s' Hs); reflexivity.
Qed.

(** X2. On a store that keeps what is put into it, a root write changes no
    lookup but that of its own (kind, section, head): the CHT and the
    BloomTrie entries, and the entries of different sections or heads, do not
    disturb each other. *)
Theorem root_store_write_isolation `{!DatabaseLaws D}
    (k k' : Kind) (db : D) (s s' : Z) (h h' r : Hash) :
  ~ (k' = k /\ u64 s' = u64 s /\ h' = h) ->
  GetRoot k (StoreRoot k' db s' h' r) s h = GetRoot k db s h.
Proof.
  intros Hne. apply GetRoot_Store_other.
  intros Heq. apply rootKey_inj in Heq. exact (Hne Heq).
Qed.

Lemma latestRoot_snoc (ops : list StoreOp) (op : StoreOp) k s h :
  latestRoot (ops ++ [op]) k s h
  = if writesTo op k s h then Some (op_root op) else latestRoot ops k s h.
Proof. unfold latestRoot. rewrite fold_left_app. reflexivity. Qed.

Lemma applyStores_snoc (ops : list StoreOp) (op : StoreOp) (db : D) :
  applyStores (ops ++ [op]) db = applyStore (applyStores ops db) op.
Proof. unfold applyStores. rewrite fold_left_app. reflexivity. Qed.

Lemma allStored_snoc (ops : list StoreOp) (op : StoreOp) (db : D) :
  allStored (ops ++ [op]) db ->
  allStored ops db
  /\ (Put (applyStores ops db)
        (rootKey (op_kind op) (op_section op) (op_head op))
        (Bytes (op_root op))).2 = None.
Proof.
  revert db. induction ops as [|o ops IH]; intros db; cbn.
  - intros [H _]. split; [exact I | exact H].
  - intros [H1 H2]. destruct (IH _ H2) as [H3 H4]. repeat split; assumption.
Qed.

(** X3. On a store that keeps what is put into it, after a history of root
    writes that all went through, a lookup returns the root of the last write
    to its (kind, section, head), and what the store held before when there
    is no such write: a rewritten entry shows its latest root. *)
Theorem root_store_latest_write_wins `{!DatabaseLaws D}
    (ops : list StoreOp) (db0 : D) (k : Kind) (s : Z) (h : Hash) :
  allStored ops db0 ->
  GetRoot k (applyStores ops db0) s h
  = default (GetRoot k db0 s h) (latestRoot ops k s h).
Proof.
  induction ops as [|op ops IH] using rev_ind; intros Hall; [reflexivity|].
  apply allStored_snoc in Hall as [Hall Hput].
  rewrite applyStores_snoc, latestRoot_snoc. unfold applyStore, writesTo.
  destruct (bool_decide_reflect
              (op_kind op = k /\ u64 (op_section op) = u64 s /\ op_head op = h))
    as [(Hk & Hs & Hh)|Hne].
  - subst k h. cbn [default].
    rewrite GetRoot_data, StoreRoot_state.
    assert (Hkey : rootKey (op_kind op) s (op_head op)
                   = rootKey (op_kind op) (op_section op) (op_head op)).
    { destruct (op_kind op); cbn [rootKey]; unfold chtRootKey, bloomTrieRootKey;
        rewrite (PutUint64_congr s (op_section op)) by congruence; reflexivity. }
    rewrite Hkey.
    destruct (Put (applyStores ops db0) _ _) as [db' e] eqn:E.
    cbn in Hput. subst e. cbn [fst].
    rewrite (Get_Put_eq _ _ _ _ E). apply BytesToHash_Bytes.
  - rewrite GetRoot_Store_other; [apply IH, Hall|].
    intros Heq. apply rootKey_inj in Heq. exact (Hne Heq).
Qed.

End RootStoreHistoryProperties.

Section RootStoreHistoryExamples.
#[local] Existing Instance Mem.testDatabase.
#[local] Existing Instance testDatabase_laws.

Lemma root_store_write_isolation_witness :
  GetRoot KindBloomTrie (StoreRoot KindCHT Mem.emptyDatabase 7 Mem.hashA Mem.hashB)
    7 Mem.hashA
  = GetRoot KindBloomTrie Mem.emptyDatabase 7 Mem.hashA.
Proof.
  apply (root_store_write_isolation
           KindBloomTrie KindCHT Mem.emptyDatabase 7 7 Mem.hashA Mem.hashA Mem.hashB).
  intros (Hk & _). discriminate Hk.
Defined.

Lemma root_store_latest_write_wins_witness :
  GetRoot KindCHT
    (applyStores [mkStoreOp KindCHT 7 Mem.hashA Mem.hashA;
                  mkStoreOp KindBloomTrie 7 Mem.hashA zeroHash;
                  mkStoreOp KindCHT 7 Mem.hashA Mem.hashB] Mem.emptyDatabase)
    7 Mem.hashA
  = default (GetRoot KindCHT Mem.emptyDatabase 7 Mem.hashA)
      (latestRoot [mkStoreOp KindCHT 7 Mem.hashA Mem.hashA;
                   mkStoreOp KindBloomTrie 7 Mem.hashA zeroHash;
                   mkStoreOp KindCHT 7 Mem.hashA Mem.hashB] KindCHT 7 Mem.hashA).
Proof.
  apply (root_store_latest_write_wins
           [mkStoreOp KindCHT 7 Mem.hashA Mem.hashA;
            mkStoreOp KindBloomTrie 7 Mem.hashA zeroHash;
            mkStoreOp KindCHT 7 Mem.hashA Mem.hashB]
           Mem.emptyDatabase KindCHT 7 Mem.hashA).
  repeat split; vm_compute; reflexivity.
Defined.

(** The last of the three writes is the one read back. *)
Example latest_write_read_back :
  GetRoot KindCHT
    (applyStores [mkStoreOp KindCHT 7 Mem.hashA Mem.hashA;
                  mkStoreOp KindBloomTrie 7 Mem.hashA zeroHash;
                  mkStoreOp KindCHT 7 Mem.hashA Mem.hashB] Mem.emptyDatabase)
    7 Mem.hashA
  = Mem.hashB.
Proof. vm_compute. reflexivity. Qed.

End RootStoreHistoryExamples.

(** ** The CHT backend over a run of calls *)

Section ChtRunProperties.
Context {D T TDB Header : Type}.
Context `{!Database D, !TrieOps T TDB D, !RawDB D, !RLP, !HeaderOps Header}.
Import ChtIndexerBackend.

#[local] Abbreviation CW := (World (t T TDB) D).

(** [Process] in full: with the total difficulty and an open trie it returns,
    otherwise it panics; [lastHash] is set in every case. *)
Lemma ChtProcess_spec (w : CW) (header : Header) :
  let c := backend w in
  let seen := mk (triedb c) (section c) (sectionSize c) (Header_Hash header) in
  Process header w =
    match chtLeafValue (diskdb w) header, trie c with
    | Some v, Some tr =>
        (Ret tt,
         mkWorld (seen (Some (trie_Update tr (chtLeafKey header) v)))
           (diskdb w) (logs w))
    | _, _ => (Panic, mkWorld (seen (trie c)) (diskdb w) (logs w))
    end.
Proof.
  cbv zeta. unfold Process, chtLeafValue, chtLeafKey. unfold_M.
  unfold set_backend, set_trie, set_lastHash. cbn.
  destruct (ReadTd _ _ _) as [td|]; [|reflexivity].
  destruct (EncodeToBytes _) as [data e]. cbn.
  destruct (trie (backend w)); reflexivity.
Qed.

(** [Commit] in full, on an open trie. *)
Lemma ChtCommit_spec (w : CW) (tr : T) :
  trie (backend w) = Some tr ->
  let c := backend w in
  let r := trie_Commit tr (triedb c) in
  let root := r.2.1 in
  let f := triedb_Commit r.1.2 root (diskdb w) in
  Commit w =
    match r.2.2 with
    | Some e =>
        (Fail e,
         mkWorld (mk r.1.2 (section c) (sectionSize c) (lastHash c) (Some r.1.1))
           (diskdb w) (logs w))
    | None =>
        (Ret tt,
         mkWorld (mk f.1.1 (section c) (sectionSize c) (lastHash c) (Some r.1.1))
           (StoreChtRoot f.1.2 (section c) (lastHash c) root)
           (if u64 (u64 (section c + 1) * sectionSize c) mod CHTFrequencyClient =? 0
            then logs w ++
                 [LogStoringCHT (u64 (section c * sectionSize c) / CHTFrequencyClient)
                    (lastHash c) root]
            else logs w))
    end.
Proof.
  intros Htr. cbv zeta. unfold Commit. unfold_M. cbn. rewrite Htr.
  destruct (trie_Commit tr (triedb (backend w))) as [[tr' tdb'] [root [e|]]];
    cbn; [reflexivity|].
  destruct (triedb_Commit tdb' root (diskdb w)) as [[tdb'' db'] e']. reflexivity.
Qed.

Lemma default_last_cons {A} (d x : A) (l : list A) :
  default d (last (x :: l)) = default x (last l).
Proof. rewrite last_cons. destruct (last l); reflexivity. Qed.

(** A run of [Process] over headers whose total difficulties are there. *)
Lemma chtProcessAll_spec (hs : list Header) :
  forall (w : CW) (tr : T),
    trie (backend w) = Some tr ->
    Forall (fun h => is_Some (chtLeafValue (diskdb w) h)) hs ->
    let c := backend w in
    chtProcessAll hs w =
      (Ret tt,
       mkWorld
         (mk (triedb c) (section c) (sectionSize c)
            (default (lastHash c) (last (Header_Hash <$> hs)))
            (Some (fold_left (chtInsert (diskdb w)) hs tr)))
         (diskdb w) (logs w)).
Proof.
  induction hs as [|h hs IH]; intros w tr Htr Hall; cbv zeta.
  - destruct w as [[] ? ?]. cbn in *. subst. reflexivity.
  - inversion Hall as [|? ? [v Hv] Hall']; subst.
    cbn [chtProcessAll]. unfold mbind, M_bind.
    rewrite ChtProcess_spec. cbv zeta. rewrite Hv, Htr.
    rewrite (IH _ (trie_Update tr (chtLeafKey h) v)); [|reflexivity|exact Hall'].
    cbn [backend diskdb logs triedb section sectionSize lastHash fmap list_fmap].
    rewrite default_last_cons. cbn [fold_left].
    replace (chtInsert (diskdb w) tr h) with (trie_Update tr (chtLeafKey h) v)
      by (unfold chtInsert; rewrite Hv; reflexivity).
    reflexivity.
Qed.

Section Leaves.
Context (trie_Get : T -> list byte -> list byte).
Context `{!TrieLaws T TDB D trie_Get}.

Lemma chtInserts_get_other (db : D) (hs : list Header) :
  forall (tr : T) (key : list byte),
    key ∉ (chtLeafKey <$> hs) ->
    trie_Get (fold_left (chtInsert db) hs tr) key = trie_Get tr key.
Proof.
  induction hs as [|h hs IH]; intros tr key Hnot; [reflexivity|].
  cbn [fmap list_fmap] in Hnot. apply not_elem_of_cons in Hnot as [Hne Hnot].
  cbn [fold_left]. rewrite IH by exact Hnot.
  unfold chtInsert. apply Get_Update_ne. congruence.
Qed.

(** X4. A run of [Process] over headers whose total difficulties are all
    there, on an open trie, returns normally with the store and the log as
    they were, [lastHash] the hash of the last header (unchanged for no
    header).  When the block numbers are pairwise different, the trie then
    holds for every header the leaf (8-byte big-endian number, encoded (hash,
    total difficulty)), and every other key reads as before the run. *)
Theorem chtProcessAll_inserts_leaves (w : CW) (tr : T) (hs : list Header) :
  trie (backend w) = Some tr ->
  Forall (fun h => is_Some (chtLeafValue (diskdb w) h)) hs ->
  NoDup (chtLeafKey <$> hs) ->
  exists tr' : T,
    chtProcessAll hs w =
      (Ret tt,
       mkWorld
         (mk (triedb (backend w)) (section (backend w)) (sectionSize (backend w))
            (default (lastHash (backend w)) (last (Header_Hash <$> hs)))
            (Some tr'))
         (diskdb w) (logs w))
    /\ (forall h, h ∈ hs ->
          chtLeafValue (diskdb w) h = Some (trie_Get tr' (chtLeafKey h)))
    /\ (forall key, key ∉ (chtLeafKey <$> hs) -> trie_Get tr' key = trie_Get tr key).
Proof.
  intros Htr Hall Hnd.
  exists (fold_left (chtInsert (diskdb w)) hs tr).
  split; [apply chtProcessAll_spec; assumption|].
  split; [|intros key; apply chtInserts_get_other].
  clear Htr. revert tr. induction hs as [|h hs IH]; intros tr x Hx.
  - apply elem_of_nil in Hx. contradiction.
  - inversion Hall as [|? ? [v Hv] Hall']; subst.
    cbn [fmap list_fmap] in Hnd. apply NoDup_cons in Hnd as [Hnot Hnd].
    cbn [fold_left].
    apply elem_of_cons in Hx as [->|Hx]; [|apply IH; assumption].
    rewrite chtInserts_get_other by exact Hnot.
    unfold chtInsert. rewrite Get_Update_eq, Hv. reflexivity.
Qed.

End Leaves.

(** X5. On an open trie, a run of [Process] panics exactly when the total
    difficulty of one of the headers is absent; it never returns an error,
    and it leaves the store and the log as they were in every case. *)
Theorem chtProcessAll_halts_iff_td_missing (hs : list Header) (w : CW) :
  is_Some (trie (backend w)) ->
  ((chtProcessAll hs w).1 = Panic
   <-> Exists (fun h => chtLeafValue (diskdb w) h = None) hs)
  /\ ((chtProcessAll hs w).1 = Ret tt
      <-> Forall (fun h => is_Some (chtLeafValue (diskdb w) h)) hs)
  /\ diskdb (chtProcessAll hs w).2 = diskdb w
  /\ logs (chtProcessAll hs w).2 = logs w.
Proof.
  revert w. induction hs as [|h hs IH]; intros w [tr Htr].
  - cbn. repeat split; try discriminate; try constructor.
    intros HE. inversion HE.
  - cbn [chtProcessAll]. unfold mbind, M_bind.
    rewrite ChtProcess_spec. cbv zeta. rewrite Htr.
    destruct (chtLeafValue (diskdb w) h) as [v|] eqn:Hv.
    + set (w1 := mkWorld _ (diskdb w) (logs w)).
      destruct (IH w1) as (H1 & H2 & H3 & H4); [cbn; eauto|].
      change (diskdb w1) with (diskdb w) in *.
      change (logs w1) with (logs w) in *.
      repeat split; try assumption.
      * intros HP. apply Exists_cons. right. apply H1, HP.
      * intros HE. apply Exists_cons in HE as [HE|HE]; [congruence|].
        apply H1, HE.
      * intros HR. constructor; [rewrite Hv; eauto | apply H2, HR].
      * intros HF. inversion HF; subst. apply H2. assumption.
    + cbn. repeat split; try reflexivity; try discriminate.
      * intros _. apply Exists_cons. left. exact Hv.
      * intros HF. inversion HF as [|? ? [v Hv'] _]; subst. congruence.
Qed.

(** X6. A cycle over at least one header does not depend on what an earlier
    section left in the backend: two worlds that agree on the store, the log,
    the node database and the section size, whatever their [section],
    [lastHash] and [trie], go through [Reset], [Process] for every header and
    [Commit] to the same result and the same world, once [Reset] returns no
    error.  (For no header this fails: [lastHash] is then a leftover.) *)
Theorem chtCycle_forgets_previous_section
    (w1 w2 : CW) (s : Z) (head : Hash) (h : Header) (hs : list Header) :
  diskdb w1 = diskdb w2 ->
  logs w1 = logs w2 ->
  triedb (backend w1) = triedb (backend w2) ->
  sectionSize (backend w1) = sectionSize (backend w2) ->
  (Reset s head w1).1 = Ret tt ->
  chtCycle s head (h :: hs) w1 = chtCycle s head (h :: hs) w2.
Proof.
  destruct w1 as [[tdb1 s1 sz1 lh1 t1] d1 l1], w2 as [[tdb2 s2 sz2 lh2 t2] d2 l2].
  cbn [diskdb logs backend triedb sectionSize].
  intros <- <- <- <-.
  unfold chtCycle. cbn [chtProcessAll]. unfold Reset, Process. unfold_M.
  unfold set_backend, set_section, set_trie, set_lastHash. cbn.
  destruct (trie_New _ _ _) as [tr|e]; [intros _|discriminate].
  reflexivity.
Qed.

End ChtRunProperties.

Section ChtRunExamples.
#[local] Existing Instance Mem.testDatabase.
#[local] Existing Instance Mem.testTrieOps.
#[local] Existing Instance Mem.testRawDB.
#[local] Existing Instance Mem.testRLP.
#[local] Existing Instance Mem.testHeaderOps.
#[local] Existing Instance testTrie_laws.
Import ChtIndexerBackend.

Lemma chtProcessAll_inserts_leaves_witness :
  exists tr' : Mem.TestTrie,
    chtProcessAll (MemRuns.headersFrom 0 3) (Mem.chtOpenWorld (MemRuns.databaseWithTds 0 3)) =
      (Ret tt,
       mkWorld
         (mk (triedb (backend (Mem.chtOpenWorld (MemRuns.databaseWithTds 0 3)))) (section (backend (Mem.chtOpenWorld (MemRuns.databaseWithTds 0 3)))) (sectionSize (backend (Mem.chtOpenWorld (MemRuns.databaseWithTds 0 3))))
            (default (lastHash (backend (Mem.chtOpenWorld (MemRuns.databaseWithTds 0 3)))) (last (Header_Hash <$> (MemRuns.headersFrom 0 3))))
            (Some tr'))
         (diskdb (Mem.chtOpenWorld (MemRuns.databaseWithTds 0 3))) (logs (Mem.chtOpenWorld (MemRuns.databaseWithTds 0 3))))
    /\ (forall h, h ∈ (MemRuns.headersFrom 0 3) ->
          chtLeafValue (diskdb (Mem.chtOpenWorld (MemRuns.databaseWithTds 0 3))) h = Some (Mem.testTrieGet tr' (chtLeafKey h)))
    /\ (forall key, key ∉ (chtLeafKey <$> (MemRuns.headersFrom 0 3)) ->
          Mem.testTrieGet tr' key = Mem.testTrieGet ∅ key).
Proof.
  apply (chtProcessAll_inserts_leaves Mem.testTrieGet (Mem.chtOpenWorld (MemRuns.databaseWithTds 0 3)) ∅ (MemRuns.headersFrom 0 3)).
  - reflexivity.
  - repeat constructor; vm_compute; eauto.
  - apply (bool_decide_unpack _). vm_compute. reflexivity.
Defined.

(** Three blocks with total difficulty number + 1: after the cycle the leaf of
    block 1 is the encoding of (its hash, 2), and the root is stored under
    (section 0, hash of the last header). *)
Example chtCycle_three_blocks :
  (chtCycle 0 zeroHash (MemRuns.headersFrom 0 3)
     (Mem.chtWorld false (MemRuns.databaseWithTds 0 3))).1 = Ret tt
  /\ option_map (fun tr => Mem.testTrieGet tr (BigEndian.PutUint64 1))
       (trie (backend (chtCycle 0 zeroHash (MemRuns.headersFrom 0 3)
                         (Mem.chtWorld false (MemRuns.databaseWithTds 0 3))).2))
     = Some (Bytes (Mem.hash (MemRuns.headerOf 1)) ++ BigEndian.PutUint64 2)
  /\ is_Some
       (Mem.cells
          (diskdb (chtCycle 0 zeroHash (MemRuns.headersFrom 0 3)
                     (Mem.chtWorld false (MemRuns.databaseWithTds 0 3))).2)
          !! chtRootKey 0 (Mem.hash (MemRuns.headerOf 2))).
Proof.
  split; [vm_compute; reflexivity|].
  split; [vm_compute; reflexivity | vm_compute; eauto].
Qed.

Lemma chtProcessAll_halts_iff_td_missing_witness :
  ((chtProcessAll (MemRuns.headersFrom 0 5) (Mem.chtOpenWorld (MemRuns.databaseWithTds 0 3))).1 = Panic
   <-> Exists (fun h => chtLeafValue (diskdb (Mem.chtOpenWorld (MemRuns.databaseWithTds 0 3))) h = None) (MemRuns.headersFrom 0 5))
  /\ ((chtProcessAll (MemRuns.headersFrom 0 5) (Mem.chtOpenWorld (MemRuns.databaseWithTds 0 3))).1 = Ret tt
      <-> Forall (fun h => is_Some (chtLeafValue (diskdb (Mem.chtOpenWorld (MemRuns.databaseWithTds 0 3))) h))
            (MemRuns.headersFrom 0 5))
  /\ diskdb (chtProcessAll (MemRuns.headersFrom 0 5) (Mem.chtOpenWorld (MemRuns.databaseWithTds 0 3))).2 = diskdb (Mem.chtOpenWorld (MemRuns.databaseWithTds 0 3))
  /\ logs (chtProcessAll (MemRuns.headersFrom 0 5) (Mem.chtOpenWorld (MemRuns.databaseWithTds 0 3))).2 = logs (Mem.chtOpenWorld (MemRuns.databaseWithTds 0 3)).
Proof.
  apply (chtProcessAll_halts_iff_td_missing (MemRuns.headersFrom 0 5) (Mem.chtOpenWorld (MemRuns.databaseWithTds 0 3))).
  eexists. reflexivity.
Defined.

(** The fourth of five headers has no total difficulty in the store. *)
Example chtProcessAll_panics_at_missing_td :
  (chtProcessAll (MemRuns.headersFrom 0 5) (Mem.chtOpenWorld (MemRuns.databaseWithTds 0 3))).1 = Panic
  /\ lastHash (backend (chtProcessAll (MemRuns.headersFrom 0 5) (Mem.chtOpenWorld (MemRuns.databaseWithTds 0 3))).2)
     = Mem.hash (MemRuns.headerOf 3).
Proof. split; vm_compute; reflexivity. Qed.

Lemma chtCycle_forgets_previous_section_witness :
  chtCycle 1 Mem.hashB (MemRuns.headerOf 4096 :: MemRuns.headersFrom 4097 2)
    (Mem.chtWorld false Mem.emptyDatabase)
  = chtCycle 1 Mem.hashB (MemRuns.headerOf 4096 :: MemRuns.headersFrom 4097 2)
      MemRuns.chtServerWorld7.
Proof.
  apply (chtCycle_forgets_previous_section
           (Mem.chtWorld false Mem.emptyDatabase) MemRuns.chtServerWorld7
           1 Mem.hashB); reflexivity.
Defined.

End ChtRunExamples.

(** ** The CHT backend: what [Commit] leaves for the readers *)

Section ChtCommitProperties.
Context {D T TDB : Type}.
Context `{!Database D, !TrieOps T TDB D, !DatabaseLaws D}.
Import ChtIndexerBackend.

#[local] Abbreviation CW := (World (t T TDB) D).

Lemma GetChtRoot_StoreChtRoot (db : D) (s s' : Z) (h r : Hash) :
  u64 s' = u64 s ->
  (Put db (chtRootKey s h) (Bytes r)).2 = None ->
  GetChtRoot (StoreChtRoot db s h r) s' h = r.
Proof.
  intros Hs Hput. unfold GetChtRoot, StoreChtRoot.
  replace (chtRootKey s' h) with (chtRootKey s h)
    by (unfold chtRootKey; rewrite (PutUint64_congr s' s Hs); reflexivity).
  destruct (Put db (chtRootKey s h) (Bytes r)) as [db' e] eqn:E.
  cbn in Hput. subst e. rewrite (Get_Put_eq _ _ _ _ E). apply BytesToHash_Bytes.
Qed.

(** X7. A commit of a server backend (sections of 4096 blocks) that goes
    through stores the root under (section, lastHash).  It logs "Storing CHT"
    exactly when the section ends a client section, that is when
    [(section + 1) mod 8 = 0], and then with the client index [section / 8]:
    the index at which [GetChtV2Root] reads back the root just stored. *)
Theorem ChtCommit_server_log_matches_V2 (w : CW) (tr : T) :
  trie (backend w) = Some tr ->
  sectionSize (backend w) = CHTFrequencyServer ->
  0 <= section (backend w) < 2 ^ 52 - 1 ->
  let c := backend w in
  let r := trie_Commit tr (triedb c) in
  let root := r.2.1 in
  let db' := (triedb_Commit r.1.2 root (diskdb w)).1.2 in
  r.2.2 = None ->
  (Put db' (chtRootKey (section c) (lastHash c)) (Bytes root)).2 = None ->
  (Commit w).1 = Ret tt
  /\ GetChtRoot (diskdb (Commit w).2) (section c) (lastHash c) = root
  /\ (if (section c + 1) mod 8 =? 0
      then logs (Commit w).2
           = logs w ++ [LogStoringCHT (section c / 8) (lastHash c) root]
           /\ GetChtV2Root (diskdb (Commit w).2) (section c / 8) (lastHash c) = root
      else logs (Commit w).2 = logs w).
Proof.
  intros Htr Hsize Hs. cbv zeta. intros Herr Hput.
  rewrite (ChtCommit_spec w tr Htr). cbv zeta. rewrite Herr. cbn [fst snd diskdb logs].
  split; [reflexivity|].
  split; [apply GetChtRoot_StoreChtRoot; [reflexivity | exact Hput]|].
  rewrite Hsize. unfold CHTFrequencyServer, CHTFrequencyClient.
  set (s := section (backend w)) in *.
  change (2 ^ 52 - 1) with 4503599627370495 in Hs.
  assert (H1 : u64 (u64 (s + 1) * 4096) = (s + 1) * 4096).
  { unfold u64. change (2 ^ 64) with 18446744073709551616.
    rewrite (Z.mod_small (s + 1)) by lia. apply Z.mod_small. lia. }
  assert (H2 : u64 (s * 4096) = s * 4096).
  { unfold u64. change (2 ^ 64) with 18446744073709551616.
    apply Z.mod_small. lia. }
  rewrite H1, H2.
  assert (H3 : ((s + 1) * 4096) mod 32768 = 0 <-> (s + 1) mod 8 = 0).
  { change 32768 with (8 * 4096). rewrite Z.mul_mod_distr_r by lia. lia. }
  assert (H4 : s * 4096 / 32768 = s / 8).
  { change 32768 with (8 * 4096). apply Z.div_mul_cancel_r; lia. }
  rewrite H4.
  destruct (Z.eqb_spec ((s + 1) mod 8) 0) as [E|E].
  - rewrite (proj2 (Z.eqb_eq _ _) (proj2 H3 E)). split; [reflexivity|].
    unfold GetChtV2Root. apply GetChtRoot_StoreChtRoot; [|exact Hput].
    change (CHTFrequencyClient / CHTFrequencyServer) with 8.
    unfold u64. change (2 ^ 64) with 18446744073709551616.
    Z.div_mod_to_equations. lia.
  - destruct (Z.eqb_spec (((s + 1) * 4096) mod 32768) 0) as [E'|E'];
      [exfalso; apply E, H3, E' | reflexivity].
Qed.

(** X8. Sections chain through the store: after a commit that went through,
    a [Reset] for the next section, called with the head the commit stored
    the root under ([lastHash]), opens the trie at exactly the root just
    committed. *)
Theorem ChtCommit_then_Reset_chains (w : CW) (tr : T) :
  trie (backend w) = Some tr ->
  0 <= section (backend w) < 2 ^ 64 - 1 ->
  let c := backend w in
  let r := trie_Commit tr (triedb c) in
  let root := r.2.1 in
  let db' := (triedb_Commit r.1.2 root (diskdb w)).1.2 in
  r.2.2 = None ->
  (Put db' (chtRootKey (section c) (lastHash c)) (Bytes root)).2 = None ->
  let w2 := (Commit w).2 in
  Reset (section c + 1) (lastHash c) w2 =
    match trie_New root (triedb (backend w2)) (diskdb w2) with
    | inl t =>
        (Ret tt,
         mkWorld (mk (triedb (backend w2)) (section c + 1) (sectionSize c)
                    (lastHash c) (Some t))
           (diskdb w2) (logs w2))
    | inr e =>
        (Fail e,
         mkWorld (mk (triedb (backend w2)) (section c + 1) (sectionSize c)
                    (lastHash c) None)
           (diskdb w2) (logs w2))
    end.
Proof.
  intros Htr Hs. cbv zeta. intros Herr Hput.
  rewrite ChtReset_spec. cbv zeta.
  rewrite (ChtCommit_spec w tr Htr). cbv zeta. rewrite Herr.
  cbn [fst snd diskdb logs backend triedb section sectionSize lastHash].
  replace (0 <? section (backend w) + 1) with true
    by (symmetry; apply Z.ltb_lt; lia).
  rewrite GetChtRoot_StoreChtRoot; [reflexivity | | exact Hput].
  replace (section (backend w) + 1 - 1) with (section (backend w)) by lia.
  unfold u64. apply Zmod_mod.
Qed.

End ChtCommitProperties.

Section ChtCommitExamples.
#[local] Existing Instance Mem.testDatabase.
#[local] Existing Instance testDatabase_laws.
#[local] Existing Instance Mem.testTrieOps.
Import ChtIndexerBackend.

Lemma ChtCommit_server_log_matches_V2_witness :
  (Commit MemRuns.chtServerWorld7).1 = Ret tt
  /\ logs (Commit MemRuns.chtServerWorld7).2
     = [LogStoringCHT 0 Mem.hashA (trie_Commit (∅ : Mem.TestTrie) ∅).2.1]
  /\ GetChtV2Root (diskdb (Commit MemRuns.chtServerWorld7).2) 0 Mem.hashA
     = (trie_Commit (∅ : Mem.TestTrie) ∅).2.1.
Proof.
  destruct (ChtCommit_server_log_matches_V2 MemRuns.chtServerWorld7 ∅)
    as (H1 & _ & H3 & H4);
    [reflexivity | reflexivity | cbn; lia
    | vm_compute; reflexivity | vm_compute; reflexivity |].
  split; [exact H1 | split; [exact H3 | exact H4]].
Defined.

Lemma ChtCommit_then_Reset_chains_witness :
  (Reset 8 Mem.hashA (Commit MemRuns.chtServerWorld7).2).1 = Ret tt.
Proof.
  rewrite (ChtCommit_then_Reset_chains MemRuns.chtServerWorld7 ∅);
    [reflexivity | reflexivity | cbn; lia
    | vm_compute; reflexivity | vm_compute; reflexivity].
Defined.

End ChtCommitExamples.

(** ** The BloomTrie backend: what [Commit] keeps in every outcome *)

Section BloomFrameProperties.
Context {D T TDB : Type}.
Context `{!Database D, !TrieOps T TDB D, !RawDB D, !Bitutil}.
Import BloomTrieIndexerBackend.

#[local] Abbreviation BW := (World (t T TDB) D).

Lemma readSubSections_frame (n : nat) :
  forall (i j : Z) (acc : list byte) (w : BW),
    (readSubSections n i j acc w).2 = w.
Proof.
  induction n as [|n IH]; intros i j acc w; [reflexivity|].
  rewrite readSubSections_step.
  destruct (subVector _ _ _ _); [apply IH | reflexivity | reflexivity].
Qed.

(** The loop of [Commit] changes nothing but the trie, however it ends. *)
Lemma commitBits_frame (n : nat) :
  forall (i cs ds : Z) (w : BW),
    let w' := (commitBits n i cs ds w).2 in
    diskdb w' = diskdb w /\ logs w' = logs w
    /\ triedb (backend w') = triedb (backend w)
    /\ section (backend w') = section (backend w)
    /\ parentSectionSize (backend w') = parentSectionSize (backend w)
    /\ bloomTrieRatio (backend w') = bloomTrieRatio (backend w)
    /\ sectionHeads (backend w') = sectionHeads (backend w).
Proof.
  induction n as [|n IH]; intros i cs ds w; cbv zeta; [repeat split|].
  rewrite commitBits_step.
  pose proof (readSubSections_frame (Z.to_nat (bloomTrieRatio (backend w)))
                i 0 [] w) as Hw.
  destruct (readSubSections _ _ _ _ _) as [[decomp|e|] w1]; cbn in Hw; subst w1;
    [|repeat split|repeat split].
  cbv zeta. destruct (trie (backend w)) as [tr|]; [|repeat split].
  match goal with
  | |- context [commitBits n ?i' ?cs' ?ds' ?w'] =>
      destruct (IH i' cs' ds' w') as (H1 & H2 & H3 & H4 & H5 & H6 & H7)
  end.
  repeat split; assumption.
Qed.

(** X9. A [Commit] that returns an error, whichever step reported it (a
    read of bloom bits, a decompression or the commit of the trie), has
    written nothing: the store and the log are as they were before the call.
    No hypothesis on the backend is needed. *)
Theorem BloomCommit_error_writes_nothing (w : BW) (e : error) :
  (Commit w).1 = Fail e ->
  diskdb (Commit w).2 = diskdb w /\ logs (Commit w).2 = logs w.
Proof.
  unfold Commit, mbind, M_bind.
  pose proof (commitBits_frame (Z.to_nat BloomBitLength) 0 0 0 w) as HF.
  cbv zeta in HF.
  destruct (commitBits _ _ _ _ w) as [[[cs ds]|e'|] w1];
    cbn [fst snd] in *; destruct HF as (Hd & Hl & _).
  - unfold get, put, fail, panic. cbn.
    destruct (trie (backend w1)) as [tr|]; [|discriminate].
    destruct (trie_Commit tr (triedb (backend w1))) as [[tr' tdb'] [root [e'|]]];
      cbn; [intros _; split; assumption|].
    destruct (triedb_Commit tdb' root (diskdb w1)) as [[tdb'' db'] e''].
    cbn. destruct (index _ _); discriminate.
  - intros _. split; assumption.
  - discriminate.
Qed.

(** [Commit] keeps the sizes, the section and the scratch slots of the
    backend in every outcome. *)
Lemma BloomCommit_shape (w : BW) :
  parentSectionSize (backend (Commit w).2) = parentSectionSize (backend w)
  /\ bloomTrieRatio (backend (Commit w).2) = bloomTrieRatio (backend w)
  /\ section (backend (Commit w).2) = section (backend w)
  /\ sectionHeads (backend (Commit w).2) = sectionHeads (backend w).
Proof.
  unfold Commit, mbind, M_bind.
  pose proof (commitBits_frame (Z.to_nat BloomBitLength) 0 0 0 w) as HF.
  cbv zeta in HF.
  destruct (commitBits _ _ _ _ w) as [[[cs ds]|e'|] w1];
    cbn [fst snd] in *; destruct HF as (_ & _ & _ & Hs & Hp & Hr & Hh).
  - unfold get, put, fail, panic. cbn.
    destruct (trie (backend w1)) as [tr|];
      [|cbn; rewrite Hp, Hr, Hh, Hs; repeat split].
    destruct (trie_Commit tr (triedb (backend w1))) as [[tr' tdb'] [root [e'|]]];
      cbn; [rewrite Hp, Hr, Hh, Hs; repeat split|].
    destruct (triedb_Commit tdb' root (diskdb w1)) as [[tdb'' db'] e''].
    cbn. destruct (index _ _); cbn; rewrite Hp, Hr, Hh, Hs; repeat split.
  - rewrite Hp, Hr, Hh, Hs. repeat split.
  - rewrite Hp, Hr, Hh, Hs. repeat split.
Qed.

End BloomFrameProperties.

Section BloomFrameExamples.
#[local] Existing Instance Mem.testDatabase.
#[local] Existing Instance Mem.testTrieOps.
#[local] Existing Instance Mem.testRawDB.
#[local] Existing Instance Mem.testBitutil.
Import BloomTrieIndexerBackend.

Lemma BloomCommit_error_writes_nothing_witness :
  diskdb (Commit (Mem.bloomOpenWorld false Mem.emptyDatabase)).2
  = diskdb (Mem.bloomOpenWorld false Mem.emptyDatabase)
  /\ logs (Commit (Mem.bloomOpenWorld false Mem.emptyDatabase)).2
     = logs (Mem.bloomOpenWorld false Mem.emptyDatabase).
Proof.
  apply (BloomCommit_error_writes_nothing
           (Mem.bloomOpenWorld false Mem.emptyDatabase) Mem.errNotFound).
  vm_compute. reflexivity.
Defined.

End BloomFrameExamples.

(** ** Both backends over arbitrary calls *)

Section CallProperties.
Context {D T TDB Header : Type}.
Context `{!Database D, !TrieOps T TDB D, !RawDB D, !RLP, !Bitutil,
          !HeaderOps Header}.

#[local] Abbreviation CW := (World (ChtIndexerBackend.t T TDB) D).
#[local] Abbreviation BW := (World (BloomTrieIndexerBackend.t T TDB) D).

(** [Process] of the BloomTrie backend in full. *)
Lemma BloomProcess_spec (w : BW) (header : Header) :
  let b := backend w in
  let size := BloomTrieIndexerBackend.parentSectionSize b in
  let num :=
    u64 (BigInt_Uint64 (Header_Number header)
         - u64 (BloomTrieIndexerBackend.section b * BloomTrieFrequency)) in
  BloomTrieIndexerBackend.Process header w =
    if size =? 0 then (Panic, w)
    else if u64 (num + 1) mod size =? 0 then
      match index (BloomTrieIndexerBackend.sectionHeads b) (num / size) with
      | None => (Panic, w)
      | Some _ =>
          (Ret tt,
           set_backend w
             (BloomTrieIndexerBackend.set_sectionHeads b
                (<[Z.to_nat (num / size) := Header_Hash header]>
                   (BloomTrieIndexerBackend.sectionHeads b))))
      end
    else (Ret tt, w).
Proof.
  cbv zeta. unfold BloomTrieIndexerBackend.Process. unfold_M. cbn.
  destruct (_ =? 0); [reflexivity|].
  destruct (_ mod _ =? 0); [|reflexivity].
  destruct (index _ _); reflexivity.
Qed.

Lemma chtCall_frame (c : Call Header) (w : CW) :
  isCommit c = false ->
  diskdb (chtCall c w) = diskdb w /\ logs (chtCall c w) = logs w.
Proof.
  destruct c as [s h|hdr|]; cbn [chtCall isCommit]; [intros _|intros _|discriminate].
  - rewrite ChtReset_spec. cbv zeta. destruct (trie_New _ _ _); split; reflexivity.
  - rewrite ChtProcess_spec. cbv zeta.
    destruct (chtLeafValue _ _); [destruct (ChtIndexerBackend.trie _)|];
      split; reflexivity.
Qed.

Lemma bloomCall_frame (c : Call Header) (w : BW) :
  isCommit c = false ->
  diskdb (bloomCall c w) = diskdb w /\ logs (bloomCall c w) = logs w.
Proof.
  destruct c as [s h|hdr|]; cbn [bloomCall isCommit];
    [intros _|intros _|discriminate].
  - rewrite BloomReset_spec. cbv zeta. destruct (trie_New _ _ _); split; reflexivity.
  - rewrite BloomProcess_spec. cbv zeta.
    destruct (_ =? 0); [split; reflexivity|].
    destruct (_ mod _ =? 0); [|split; reflexivity].
    destruct (index _ _); split; reflexivity.
Qed.

(** X10. Only [Commit] writes: whatever [Reset] and [Process] calls are made
    on either backend, in any order and whatever they return (errors and
    panics included), the store and the log stay as they were. *)
Theorem calls_without_Commit_write_nothing
    (cs1 : list (Call Header)) (w1 : CW) (cs2 : list (Call Header)) (w2 : BW) :
  Forall (fun c => isCommit c = false) cs1 ->
  Forall (fun c => isCommit c = false) cs2 ->
  (diskdb (chtCalls cs1 w1) = diskdb w1 /\ logs (chtCalls cs1 w1) = logs w1)
  /\ (diskdb (bloomCalls cs2 w2) = diskdb w2
      /\ logs (bloomCalls cs2 w2) = logs w2).
Proof.
  intros H1 H2. split.
  - revert w1. induction H1 as [|c cs Hc _ IH]; intros w1; [split; reflexivity|].
    cbn [chtCalls fold_left]. destruct (IH (chtCall c w1)) as [Hd Hl].
    destruct (chtCall_frame c w1 Hc) as [Hd' Hl'].
    unfold chtCalls in *. split; congruence.
  - revert w2. induction H2 as [|c cs Hc _ IH]; intros w2; [split; reflexivity|].
    cbn [bloomCalls fold_left]. destruct (IH (bloomCall c w2)) as [Hd Hl].
    destruct (bloomCall_frame c w2 Hc) as [Hd' Hl'].
    unfold bloomCalls in *. split; congruence.
Qed.

(** X11. What [NewBloomTrieIndexer] sets up is kept by every call, in every
    outcome: after any calls of [Reset], [Process] and [Commit] the backend
    still has the [parentSectionSize] of its mode, [bloomTrieRatio] =
    32768 / [parentSectionSize], and [bloomTrieRatio] scratch slots. *)
Theorem bloomCalls_keep_built
    (clientMode : bool) (cs : list (Call Header)) (w : BW) :
  built clientMode (backend w) ->
  built clientMode (backend (bloomCalls cs w)).
Proof.
  revert w. induction cs as [|c cs IH]; intros w Hb; [exact Hb|].
  cbn [bloomCalls fold_left]. apply IH.
  destruct c as [s h|hdr|]; cbn [bloomCall].
  - apply BloomReset_built, Hb.
  - apply BloomProcess_built, Hb.
  - destruct Hb as (Hp & Hr & Hl).
    destruct (BloomCommit_shape w) as (Hp' & Hr' & _ & Hh').
    unfold built. rewrite Hp', Hr', Hh'. repeat split; assumption.
Qed.

(** X12. A missing previous root is not an error for [Reset]: when the store
    has no data under (section - 1, head), either backend opens its trie at
    the zero root, exactly as it does for section 0, and records the
    section. *)
Theorem Reset_without_previous_root (wc : CW) (wb : BW) (s : Z) (head : Hash) :
  (Get (diskdb wc) (chtRootKey (u64 (s - 1)) head)).1 = [] ->
  (Get (diskdb wb) (bloomTrieRootKey (u64 (s - 1)) head)).1 = [] ->
  ChtIndexerBackend.Reset s head wc
  = match trie_New zeroHash (ChtIndexerBackend.triedb (backend wc)) (diskdb wc) with
    | inl tr =>
        (Ret tt,
         mkWorld
           (ChtIndexerBackend.mk (ChtIndexerBackend.triedb (backend wc)) s
              (ChtIndexerBackend.sectionSize (backend wc))
              (ChtIndexerBackend.lastHash (backend wc)) (Some tr))
           (diskdb wc) (logs wc))
    | inr e =>
        (Fail e,
         mkWorld
           (ChtIndexerBackend.mk (ChtIndexerBackend.triedb (backend wc)) s
              (ChtIndexerBackend.sectionSize (backend wc))
              (ChtIndexerBackend.lastHash (backend wc)) None)
           (diskdb wc) (logs wc))
    end
  /\ BloomTrieIndexerBackend.Reset s head wb
     = match trie_New zeroHash (BloomTrieIndexerBackend.triedb (backend wb))
               (diskdb wb) with
       | inl tr =>
           (Ret tt,
            mkWorld
              (BloomTrieIndexerBackend.mk
                 (BloomTrieIndexerBackend.triedb (backend wb)) s
                 (BloomTrieIndexerBackend.parentSectionSize (backend wb))
                 (BloomTrieIndexerBackend.bloomTrieRatio (backend wb))
                 (Some tr)
                 (BloomTrieIndexerBackend.sectionHeads (backend wb)))
              (diskdb wb) (logs wb))
       | inr e =>
           (Fail e,
            mkWorld
              (BloomTrieIndexerBackend.mk
                 (BloomTrieIndexerBackend.triedb (backend wb)) s
                 (BloomTrieIndexerBackend.parentSectionSize (backend wb))
                 (BloomTrieIndexerBackend.bloomTrieRatio (backend wb))
                 None
                 (BloomTrieIndexerBackend.sectionHeads (backend wb)))
              (diskdb wb) (logs wb))
       end.
Proof.
  intros Hc Hb. split.
  - rewrite ChtReset_spec. cbv zeta.
    replace (if 0 <? s then GetChtRoot (diskdb wc) (u64 (s - 1)) head else zeroHash)
      with zeroHash; [reflexivity|].
    destruct (0 <? s); [|reflexivity].
    change (GetChtRoot (diskdb wc) (u64 (s - 1)) head)
      with (GetRoot KindCHT (diskdb wc) (u64 (s - 1)) head).
    rewrite GetRoot_data. cbn [rootKey]. rewrite Hc. reflexivity.
  - rewrite BloomReset_spec. cbv zeta.
    replace (if 0 <? s then GetBloomTrieRoot (diskdb wb) (u64 (s - 1)) head
             else zeroHash)
      with zeroHash; [reflexivity|].
    destruct (0 <? s); [|reflexivity].
    change (GetBloomTrieRoot (diskdb wb) (u64 (s - 1)) head)
      with (GetRoot KindBloomTrie (diskdb wb) (u64 (s - 1)) head).
    rewrite GetRoot_data. cbn [rootKey]. rewrite Hb. reflexivity.
Qed.

End CallProperties.

(** ** The BloomTrie backend over the headers of a section *)

Section BloomRunProperties.
Context {D T TDB Header : Type}.
Context `{!Database D, !TrieOps T TDB D, !RawDB D, !Bitutil, !HeaderOps Header}.
Import BloomTrieIndexerBackend.

#[local] Abbreviation BW := (World (t T TDB) D).

(** The offset [Process] computes for block [first + o] of the section that
    starts at block [first]. *)
Lemma bloom_offset (first o : Z) :
  0 <= first -> first + 32768 <= 2 ^ 64 -> 0 <= o < 32768 ->
  u64 (BigInt_Uint64 (first + o) - u64 first) = o.
Proof.
  change (2 ^ 64) with 18446744073709551616. intros Hf Hl Ho.
  unfold BigInt_Uint64, u64. change (2 ^ 64) with 18446744073709551616.
  rewrite Z.abs_eq by lia.
  rewrite (Z.mod_small (first + o)), (Z.mod_small first) by lia.
  replace (first + o - first) with o by lia.
  apply Z.mod_small. lia.
Qed.

Lemma built_size (clientMode : bool) (b : t T TDB) :
  built clientMode b ->
  (parentSectionSize b = 32768 /\ bloomTrieRatio b = 1
   /\ length (sectionHeads b) = 1%nat)
  \/ (parentSectionSize b = 4096 /\ bloomTrieRatio b = 8
      /\ length (sectionHeads b) = 8%nat).
Proof.
  intros (Hp & Hr & Hl). rewrite Hp in Hr. rewrite Hr in Hl.
  destruct clientMode; [left|right]; repeat split; try assumption;
    apply Nat2Z.inj; rewrite Hl; reflexivity.
Qed.

(** X13. A header outside the backend's section (its offset from the start
    of the section, computed modulo 2^64, is 32768 or more) is not refused:
    [Process] records nothing and returns, unless the header ends a
    sub-section, in which case the slot index is out of range and [Process]
    panics.  The world is unchanged in both cases. *)
Theorem BloomProcess_outside_section
    (clientMode : bool) (w : BW) (header : Header) :
  built clientMode (backend w) ->
  let b := backend w in
  let offset :=
    u64 (BigInt_Uint64 (Header_Number header) - u64 (section b * BloomTrieFrequency)) in
  BloomTrieFrequency <= offset ->
  Process header w =
    (if u64 (offset + 1) mod parentSectionSize b =? 0 then Panic else Ret tt, w).
Proof.
  intros Hb. cbv zeta. intros Hoff. rewrite BloomProcess_spec. cbv zeta.
  set (offset := u64 (_ - _)) in *. unfold BloomTrieFrequency in Hoff.
  assert (Hidx : index (sectionHeads (backend w))
                   (offset / parentSectionSize (backend w)) = None).
  { unfold index.
    replace (offset / parentSectionSize (backend w)
             <? Z.of_nat (length (sectionHeads (backend w)))) with false;
      [rewrite andb_false_r; reflexivity|].
    symmetry. apply Z.ltb_ge.
    destruct (built_size _ _ Hb) as [(-> & _ & ->)|(-> & _ & ->)];
      Z.div_mod_to_equations; lia. }
  rewrite Hidx.
  destruct (built_size _ _ Hb) as [(-> & _)|(-> & _)]; cbn [Z.eqb];
    destruct (_ mod _ =? 0); reflexivity.
Qed.

(** [Process] for the block at offset [o] of the section. *)
Lemma BloomProcess_in_section (clientMode : bool) (w : BW) (header : Header) (o : Z) :
  built clientMode (backend w) ->
  u64 (BigInt_Uint64 (Header_Number header)
       - u64 (section (backend w) * BloomTrieFrequency)) = o ->
  0 <= o < 32768 ->
  let size := parentSectionSize (backend w) in
  (Z.to_nat (o / size) < length (sectionHeads (backend w)))%nat
  /\ Process header w =
       (Ret tt,
        if (o + 1) mod size =? 0
        then set_backend w
               (set_sectionHeads (backend w)
                  (<[Z.to_nat (o / size) := Header_Hash header]>
                     (sectionHeads (backend w))))
        else w).
Proof.
  intros Hb Ho Hr. cbv zeta. rewrite BloomProcess_spec. cbv zeta. rewrite Ho.
  assert (Hu : u64 (o + 1) = o + 1).
  { unfold u64. change (2 ^ 64) with 18446744073709551616.
    apply Z.mod_small. lia. }
  rewrite Hu.
  assert (Hslot : 0 <= o / parentSectionSize (backend w)
                  < Z.of_nat (length (sectionHeads (backend w)))).
  { destruct (built_size _ _ Hb) as [(-> & _ & ->)|(-> & _ & ->)];
      Z.div_mod_to_equations; lia. }
  split; [lia|].
  replace (parentSectionSize (backend w) =? 0) with false
    by (destruct (built_size _ _ Hb) as [(-> & _)|(-> & _)]; reflexivity).
  destruct (_ mod _ =? 0); [|reflexivity].
  unfold index.
  replace ((0 <=? o / parentSectionSize (backend w))
           && (o / parentSectionSize (backend w)
               <? Z.of_nat (length (sectionHeads (backend w)))))
    with true by (symmetry; apply andb_true_iff; split;
                  [apply Z.leb_le | apply Z.ltb_lt]; lia).
  destruct (sectionHeads (backend w) !! _) eqn:E; [reflexivity|].
  apply lookup_ge_None_1 in E. lia.
Qed.

Lemma numberedFrom_cons (first : Z) (h : Header) (hs : list Header) :
  numberedFrom first (h :: hs) ->
  Header_Number h = first /\ numberedFrom (first + 1) hs.
Proof.
  intros Hn. split.
  - rewrite (Hn 0%nat h eq_refl). cbn. lia.
  - intros k hdr Hk. rewrite (Hn (S k) hdr Hk). lia.
Qed.

(** A run of [Process] that starts at offset [o] of the section. *)
Lemma bloomProcessAll_from (clientMode : bool) (hs : list Header) :
  forall (o : Z) (w : BW),
    built clientMode (backend w) ->
    0 <= section (backend w) ->
    section (backend w) * 32768 + 32768 <= 2 ^ 64 ->
    0 <= o -> o + Z.of_nat (length hs) <= 32768 ->
    numberedFrom (section (backend w) * BloomTrieFrequency + o) hs ->
    let b := backend w in
    exists heads' : list Hash,
      bloomProcessAll hs w =
        (Ret tt,
         mkWorld
           (mk (triedb b) (section b) (parentSectionSize b) (bloomTrieRatio b)
              (trie b) heads')
           (diskdb w) (logs w))
      /\ length heads' = length (sectionHeads b)
      /\ forall j : nat,
           heads' !! j =
             if (o <? (Z.of_nat j + 1) * parentSectionSize b)
                && ((Z.of_nat j + 1) * parentSectionSize b
                    <=? o + Z.of_nat (length hs))
             then Header_Hash <$>
                    hs !! Z.to_nat ((Z.of_nat j + 1) * parentSectionSize b - 1 - o)
             else sectionHeads b !! j.
Proof.
  induction hs as [|h hs IH]; intros o w Hb Hs Hl Ho Hlen Hn; cbv zeta.
  - exists (sectionHeads (backend w)). split; [|split; [reflexivity|]].
    + destruct w as [[] ? ?]; reflexivity.
    + intros j. destruct (_ && _) eqn:E; [|reflexivity].
      apply andb_true_iff in E as [E1 E2].
      apply Z.ltb_lt in E1. apply Z.leb_le in E2. cbn [length] in E2. lia.
  - apply numberedFrom_cons in Hn as [Hnum Hn]. cbn [length] in Hlen.
    destruct (BloomProcess_in_section clientMode w h o Hb) as [Hslot HP].
    { rewrite Hnum. apply bloom_offset; unfold BloomTrieFrequency; lia. }
    { lia. }
    cbv zeta in Hslot, HP.
    cbn [bloomProcessAll]. unfold mbind, M_bind. rewrite HP.
    set (w1 := if (o + 1) mod parentSectionSize (backend w) =? 0
               then set_backend w _ else w) in *.
    assert (Hsame : triedb (backend w1) = triedb (backend w)
                    /\ section (backend w1) = section (backend w)
                    /\ parentSectionSize (backend w1) = parentSectionSize (backend w)
                    /\ bloomTrieRatio (backend w1) = bloomTrieRatio (backend w)
                    /\ trie (backend w1) = trie (backend w)
                    /\ diskdb w1 = diskdb w /\ logs w1 = logs w
                    /\ length (sectionHeads (backend w1))
                       = length (sectionHeads (backend w))).
    { subst w1. destruct (_ mod _ =? 0); cbn; rewrite ?length_insert; tauto. }
    destruct Hsame as (E1 & E2 & E3 & E4 & E5 & E6 & E7 & E8).
    destruct (IH (o + 1) w1) as (heads' & Hrun & Hlen' & Hget).
    { destruct Hb as (B1 & B2 & B3). unfold built.
      rewrite E3, E4, E8. auto. }
    { rewrite E2. exact Hs. }
    { rewrite E2. exact Hl. }
    { lia. }
    { lia. }
    { rewrite E2. replace (section (backend w) * BloomTrieFrequency + (o + 1))
        with (section (backend w) * BloomTrieFrequency + o + 1) by lia.
      exact Hn. }
    cbv zeta in Hrun, Hget. rewrite E1, E2, E3, E4, E5, E6, E7 in Hrun.
    rewrite E3 in Hget. rewrite E8 in Hlen'.
    exists heads'. split; [exact Hrun|]. split; [exact Hlen'|].
    intros j. rewrite Hget. clear Hget Hrun IH HP.
    assert (Hw1 : sectionHeads (backend w1) !! j =
                  if (o + 1) mod parentSectionSize (backend w) =? 0
                  then <[Z.to_nat (o / parentSectionSize (backend w))
                         := Header_Hash h]> (sectionHeads (backend w)) !! j
                  else sectionHeads (backend w) !! j).
    { subst w1. destruct (_ mod _ =? 0); reflexivity. }
    rewrite Hw1. clear Hw1 E1 E2 E3 E4 E5 E6 E7 E8 w1.
    cbn [length].
    assert (Hsize : parentSectionSize (backend w) = 32768
                    \/ parentSectionSize (backend w) = 4096).
    { destruct (built_size _ _ Hb) as [(-> & _)|(-> & _)]; auto. }
    set (size := parentSectionSize (backend w)) in *.
    set (e := (Z.of_nat j + 1) * size) in *.
    destruct (Z.eq_dec e (o + 1)) as [Ee|Ne].
    + (* the new header ends sub-section [j] *)
      assert (Hmod : ((o + 1) mod size =? 0) = true).
      { apply Z.eqb_eq. subst e. rewrite <- Ee. apply Z.mod_mul.
        destruct Hsize as [-> | ->]; discriminate. }
      assert (Hj : Z.to_nat (o / size) = j).
      { subst e. destruct Hsize as [Hz|Hz]; rewrite Hz in *;
          apply Nat2Z.inj; rewrite Z2Nat.id;
          Z.div_mod_to_equations; lia. }
      rewrite Hmod, Hj.
      replace (o + 1 <? e) with false by (symmetry; apply Z.ltb_ge; lia).
      replace (o <? e) with true by (symmetry; apply Z.ltb_lt; lia).
      replace (e <=? o + Z.of_nat (S (length hs))) with true
        by (symmetry; apply Z.leb_le; lia).
      cbn [andb]. replace (e - 1 - o) with 0 by lia.
      cbn. apply list_lookup_insert_eq. rewrite <- Hj. exact Hslot.
    + assert (Hins : (if (o + 1) mod size =? 0
                      then <[Z.to_nat (o / size) := Header_Hash h]>
                             (sectionHeads (backend w)) !! j
                      else sectionHeads (backend w) !! j)
                     = sectionHeads (backend w) !! j).
      { destruct ((o + 1) mod size =? 0) eqn:Em; [|reflexivity].
        apply list_lookup_insert_ne. intros Hj. apply Ne.
        apply Z.eqb_eq in Em. subst e.
        destruct Hsize as [Hz|Hz]; rewrite Hz in *;
          apply (f_equal Z.of_nat) in Hj; rewrite Z2Nat.id in Hj;
          Z.div_mod_to_equations; lia. }
      rewrite Hins. clear Hins.
      destruct (Z.ltb_spec (o + 1) e) as [Lt|Ge].
      * replace (o <? e) with true by (symmetry; apply Z.ltb_lt; lia).
        replace (o + 1 + Z.of_nat (length hs))
          with (o + Z.of_nat (S (length hs))) by lia.
        cbn [andb]. destruct (_ <=? _); [|reflexivity].
        replace (Z.to_nat (e - 1 - o)) with (S (Z.to_nat (e - 1 - (o + 1))))
          by lia.
        reflexivity.
      * replace (o <? e) with false by (symmetry; apply Z.ltb_ge; lia).
        reflexivity.
Qed.

(** X14. [Process] over the headers of the backend's section, in order
    from its first block: the run returns normally and changes nothing but
    the scratch slots.  Slot [j] then holds the hash of the last header of
    sub-section [j] when the run reached it, and is as before otherwise, so
    a partial run leaves the later slots with what an earlier section put
    there. *)
Theorem bloomProcessAll_records_heads
    (clientMode : bool) (w : BW) (hs : list Header) :
  built clientMode (backend w) ->
  0 <= section (backend w) ->
  section (backend w) * BloomTrieFrequency + BloomTrieFrequency <= 2 ^ 64 ->
  Z.of_nat (length hs) <= BloomTrieFrequency ->
  numberedFrom (section (backend w) * BloomTrieFrequency) hs ->
  let b := backend w in
  exists heads' : list Hash,
    bloomProcessAll hs w =
      (Ret tt,
       mkWorld
         (mk (triedb b) (section b) (parentSectionSize b) (bloomTrieRatio b)
            (trie b) heads')
         (diskdb w) (logs w))
    /\ length heads' = length (sectionHeads b)
    /\ forall j : nat,
         heads' !! j =
           if (Z.of_nat j + 1) * parentSectionSize b <=? Z.of_nat (length hs)
           then Header_Hash <$>
                  hs !! Z.to_nat ((Z.of_nat j + 1) * parentSectionSize b - 1)
           else sectionHeads b !! j.
Proof.
  unfold BloomTrieFrequency. intros Hb Hs Hl Hlen Hn. cbv zeta.
  destruct (bloomProcessAll_from clientMode hs 0 w Hb Hs Hl)
    as (heads' & Hrun & Hlen' & Hget); [lia|lia| |].
  { unfold BloomTrieFrequency.
    replace (section (backend w) * 32768 + 0)
      with (section (backend w) * 32768) by lia. exact Hn. }
  cbv zeta in Hrun, Hget.
  exists heads'. split; [exact Hrun|]. split; [exact Hlen'|].
  intros j. rewrite Hget.
  assert (Hsize : 0 < parentSectionSize (backend w)).
  { destruct (built_size _ _ Hb) as [(-> & _)|(-> & _)]; reflexivity. }
  replace (0 <? (Z.of_nat j + 1) * parentSectionSize (backend w)) with true
    by (symmetry; apply Z.ltb_lt; nia).
  cbn [andb]. rewrite Z.add_0_l, Z.sub_0_r. reflexivity.
Qed.

(** X15. A cycle over a whole section (its 32768 headers, in order) does
    not depend on what an earlier section left in the backend: [Reset] keeps
    the scratch slots, but the run of [Process] overwrites every one of them
    before [Commit] reads them.  Two backends built for the same mode that
    agree on the store, the log and the node database, whatever their
    [section], [trie] and slots, go through the cycle to the same result and
    the same world, once [Reset] returns no error. *)
Theorem bloomCycle_full_section_forgets_slots
    (clientMode : bool) (w1 w2 : BW) (s : Z) (head : Hash) (hs : list Header) :
  built clientMode (backend w1) ->
  built clientMode (backend w2) ->
  diskdb w1 = diskdb w2 ->
  logs w1 = logs w2 ->
  triedb (backend w1) = triedb (backend w2) ->
  0 <= s ->
  s * BloomTrieFrequency + BloomTrieFrequency <= 2 ^ 64 ->
  Z.of_nat (length hs) = BloomTrieFrequency ->
  numberedFrom (s * BloomTrieFrequency) hs ->
  (Reset s head w1).1 = Ret tt ->
  bloomCycle s head hs w1 = bloomCycle s head hs w2.
Proof.
  destruct w1 as [[tdb1 s1 p1 r1 t1 h1] d1 l1], w2 as [[tdb2 s2 p2 r2 t2 h2] d2 l2].
  unfold built. cbn [diskdb logs backend triedb parentSectionSize bloomTrieRatio
                     sectionHeads].
  intros (P1 & R1 & L1) (P2 & R2 & L2) <- <- <- Hs Hl Hlen Hn.
  rewrite <- P2 in P1. subst p1. rewrite <- R2 in R1. subst r1.
  unfold bloomCycle, mbind, M_bind. rewrite !BloomReset_spec. cbv zeta.
  cbn [diskdb logs backend triedb parentSectionSize bloomTrieRatio sectionHeads].
  destruct (trie_New _ tdb1 d1) as [tr|e]; [intros _|discriminate].
  unfold BloomTrieFrequency in Hl, Hlen.
  set (wa := mkWorld (mk tdb1 s p2 r2 (Some tr) h1) d1 l1).
  set (wb := mkWorld (mk tdb1 s p2 r2 (Some tr) h2) d1 l1).
  assert (Ba : built clientMode (backend wa)) by (repeat split; assumption).
  assert (Bb : built clientMode (backend wb)) by (repeat split; assumption).
  destruct (bloomProcessAll_from clientMode hs 0 wa Ba Hs Hl)
    as (ha & Ra & La & Ga); [lia|lia| |].
  { cbn. rewrite Z.add_0_r. exact Hn. }
  destruct (bloomProcessAll_from clientMode hs 0 wb Bb Hs Hl)
    as (hb & Rb & Lb & Gb); [lia|lia| |].
  { cbn. rewrite Z.add_0_r. exact Hn. }
  cbv zeta in Ra, Rb, Ga, Gb. rewrite Ra, Rb.
  cbn [backend triedb section parentSectionSize bloomTrieRatio trie sectionHeads
       diskdb logs wa wb] in *.
  replace hb with ha; [reflexivity|].
  apply list_eq. intros j. rewrite Ga, Gb.
  destruct (_ && _) eqn:E; [reflexivity|].
  assert (Hj : (length h1 <= j)%nat).
  { apply andb_false_iff in E.
    destruct (built_size _ _ Ba) as [(Hp & _ & Hq)|(Hp & _ & Hq)];
      cbn in Hp, Hq; rewrite Hp in E; rewrite Hq;
      destruct E as [E|E]; [apply Z.ltb_ge in E|apply Z.leb_gt in E| |];
      try (apply Z.ltb_ge in E); try (apply Z.leb_gt in E); lia. }
  rewrite (lookup_ge_None_2 h1 j Hj).
  symmetry. apply lookup_ge_None_2.
  assert (length h2 = length h1) by (apply Nat2Z.inj; congruence). lia.
Qed.

End BloomRunProperties.

(** ** What [Commit] reports and what it stores *)

Section CommitProperties.
Context {D T TDB Header : Type}.
Context `{!Database D, !DatabaseLaws D, !TrieOps T TDB D, !RawDB D, !Bitutil}.

(** X16. [Commit] of the CHT backend on an open trie returns an error
    exactly when the commit of the trie returns one, and then it has written
    nothing to the store or the log.  The errors of flushing the trie nodes
    and of writing the root are not reported: with no trie error the result
    is nil whatever they are. *)
Theorem ChtCommit_reports_only_trie_error
    (w : World (ChtIndexerBackend.t T TDB) D) (tr : T) :
  ChtIndexerBackend.trie (backend w) = Some tr ->
  let r := trie_Commit tr (ChtIndexerBackend.triedb (backend w)) in
  (ChtIndexerBackend.Commit w).1
    = match r.2.2 with Some e => Fail e | None => Ret tt end
  /\ (is_Some r.2.2 ->
      diskdb (ChtIndexerBackend.Commit w).2 = diskdb w
      /\ logs (ChtIndexerBackend.Commit w).2 = logs w).
Proof.
  intros Htr. cbv zeta. rewrite (ChtCommit_spec w tr Htr). cbv zeta.
  destruct (trie_Commit tr _) as [[tr' tdb'] [root [e|]]]; cbn.
  - split; [reflexivity|]. intros _. split; reflexivity.
  - split; [reflexivity|]. intros [e He]. discriminate.
Qed.

Lemma GetBloomTrieRoot_StoreBloomTrieRoot (db : D) (s : Z) (h r : Hash) :
  (Put db (bloomTrieRootKey s h) (Bytes r)).2 = None ->
  GetBloomTrieRoot (StoreBloomTrieRoot db s h r) s h = r.
Proof.
  intros Hput. unfold GetBloomTrieRoot, StoreBloomTrieRoot.
  destruct (Put db (bloomTrieRootKey s h) (Bytes r)) as [db' e] eqn:E.
  cbn in Hput. subst e. rewrite (Get_Put_eq _ _ _ _ E). apply BytesToHash_Bytes.
Qed.

Import BloomTrieIndexerBackend.

Lemma built_last_slot (clientMode : bool) (b : t T TDB) :
  built clientMode b ->
  is_Some (last (sectionHeads b))
  /\ index (sectionHeads b) (u64 (bloomTrieRatio b - 1)) = last (sectionHeads b).
Proof.
  intros Hb. rewrite last_lookup.
  destruct (built_size _ _ Hb) as [(_ & Hr & Hl)|(_ & Hr & Hl)];
    unfold index; rewrite Hr, Hl; cbn; (split; [|reflexivity]);
    apply lookup_lt_is_Some; rewrite Hl; lia.
Qed.

(** X17. [Commit] of the BloomTrie backend, when every read and
    decompression goes through and the commit of the trie returns no error:
    the result is nil, the root of the trie is stored under (section, head
    of the last sub-section), one "Storing bloom trie" event with that
    section, head and root is logged, and, the write of the root having
    gone through, [GetBloomTrieRoot] reads the root back under that section
    and head.  The error of flushing the trie nodes is not looked at. *)
Theorem BloomCommit_stores_root
    (clientMode : bool) (w : World (t T TDB) D) (tr : T) :
  built clientMode (backend w) ->
  trie (backend w) = Some tr ->
  (forall i, 0 <= i < BloomBitLength -> readsOK (backend w) (diskdb w) i) ->
  let b := backend w in
  let r := trie_Commit (bitSteps b (diskdb w) tr (seqZ 0 BloomBitLength)) (triedb b) in
  let root := r.2.1 in
  let db' := (triedb_Commit r.1.2 root (diskdb w)).1.2 in
  r.2.2 = None ->
  exists head : Hash,
    last (sectionHeads b) = Some head
    /\ (Commit w).1 = Ret tt
    /\ diskdb (Commit w).2 = StoreBloomTrieRoot db' (section b) head root
    /\ (exists cs ds,
          logs (Commit w).2
          = logs w ++ [LogStoringBloomTrie (section b) head root cs ds])
    /\ ((Put db' (bloomTrieRootKey (section b) head) (Bytes root)).2 = None ->
        GetBloomTrieRoot (diskdb (Commit w).2) (section b) head = root).
Proof.
  intros Hb Htr Hall. cbv zeta. intros Herr.
  assert (Hlen : Z.of_nat (length (sectionHeads (backend w)))
                 = bloomTrieRatio (backend w)) by apply Hb.
  destruct (built_last_slot _ _ Hb) as [[head Hhead] Hidx].
  destruct (commitBits_spec w Hlen (Z.to_nat BloomBitLength) 0 0 0 tr)
    as [[_ (cs & ds & Hr)]|(i1 & j1 & e1 & Hi1 & Hj1 & Hf1 & _)].
  2:{ exfalso.
      assert (Hi1' : 0 <= i1 < BloomBitLength)
        by (unfold BloomBitLength in *; lia).
      destruct (Hall i1 Hi1' j1 Hj1) as [d Hd]. congruence. }
  rewrite (with_trie_id w tr Htr) in Hr.
  change (Z.of_nat (Z.to_nat BloomBitLength)) with BloomBitLength in Hr.
  exists head. split; [exact Hhead|].
  unfold Commit, mbind, M_bind. rewrite Hr. unfold_M.
  cbn [backend set_backend trie set_trie triedb set_triedb diskdb logs
       sectionHeads bloomTrieRatio section].
  destruct (trie_Commit _ (triedb (backend w))) as [[tr' tdb'] [root err]].
  cbn [fst snd] in Herr |- *. subst err.
  destruct (triedb_Commit tdb' root (diskdb w)) as [[tdb'' db'] e'].
  cbn [fst snd backend set_backend trie set_trie triedb set_triedb diskdb logs
       sectionHeads bloomTrieRatio section].
  rewrite Hidx, Hhead. cbn [fst snd diskdb logs].
  split; [reflexivity|]. split; [reflexivity|].
  split; [exists cs, ds; reflexivity|].
  apply GetBloomTrieRoot_StoreBloomTrieRoot.
Qed.

End CommitProperties.

(** ** The further properties on sample runs *)

Section RunExamples.
#[local] Existing Instance Mem.testDatabase.
#[local] Existing Instance Mem.testTrieOps.
#[local] Existing Instance Mem.testRawDB.
#[local] Existing Instance Mem.testRLP.
#[local] Existing Instance Mem.testBitutil.
#[local] Existing Instance Mem.testHeaderOps.
#[local] Existing Instance testDatabase_laws.

Lemma numberedFrom_headersFrom (first count : Z) :
  numberedFrom first (MemRuns.headersFrom first count).
Proof.
  intros k hdr. unfold MemRuns.headersFrom.
  change (map MemRuns.headerOf (seqZ first count))
    with (MemRuns.headerOf <$> seqZ first count).
  rewrite list_lookup_fmap.
  destruct (seqZ first count !! k) as [n|] eqn:E; [|discriminate].
  apply lookup_seqZ in E as [-> _]. cbn. intros [= <-]. reflexivity.
Qed.

Lemma length_headersFrom (first count : Z) :
  0 <= count -> Z.of_nat (length (MemRuns.headersFrom first count)) = count.
Proof.
  intros Hc. unfold MemRuns.headersFrom.
  rewrite length_map, length_seqZ. apply Z2Nat.id, Hc.
Qed.

Lemma calls_without_Commit_write_nothing_witness :
  (diskdb (chtCalls [CallReset 0 zeroHash; CallProcess Mem.header0]
             (Mem.chtWorld false Mem.databaseWithTd))
   = diskdb (Mem.chtWorld false Mem.databaseWithTd)
   /\ logs (chtCalls [CallReset 0 zeroHash; CallProcess Mem.header0]
              (Mem.chtWorld false Mem.databaseWithTd))
      = logs (Mem.chtWorld false Mem.databaseWithTd))
  /\ (diskdb (bloomCalls [CallProcess Mem.header4095; CallReset 1 Mem.hashA]
                (Mem.bloomWorld false Mem.emptyDatabase))
      = diskdb (Mem.bloomWorld false Mem.emptyDatabase)
      /\ logs (bloomCalls [CallProcess Mem.header4095; CallReset 1 Mem.hashA]
                 (Mem.bloomWorld false Mem.emptyDatabase))
         = logs (Mem.bloomWorld false Mem.emptyDatabase)).
Proof.
  apply calls_without_Commit_write_nothing; repeat constructor.
Defined.

Lemma bloomCalls_keep_built_witness :
  built false
    (backend
       (bloomCalls [CallReset 0 zeroHash; CallProcess Mem.header4095; CallCommit]
          (Mem.bloomWorld false Mem.emptyDatabase))).
Proof.
  apply bloomCalls_keep_built. repeat split.
Defined.

Lemma Reset_without_previous_root_witness :
  (ChtIndexerBackend.Reset 5 Mem.hashA (Mem.chtWorld false Mem.emptyDatabase)).1
  = Ret tt
  /\ (BloomTrieIndexerBackend.Reset 5 Mem.hashA
        (Mem.bloomWorld false Mem.emptyDatabase)).1
     = Ret tt.
Proof.
  destruct (Reset_without_previous_root
              (Mem.chtWorld false Mem.emptyDatabase)
              (Mem.bloomWorld false Mem.emptyDatabase) 5 Mem.hashA)
    as [H1 H2]; [reflexivity | reflexivity |].
  split; [exact (f_equal fst H1) | exact (f_equal fst H2)].
Defined.

Lemma BloomProcess_outside_section_witness :
  BloomTrieIndexerBackend.Process (MemRuns.headerOf 36863)
    (Mem.bloomWorld false Mem.emptyDatabase)
  = (Panic, Mem.bloomWorld false Mem.emptyDatabase).
Proof.
  rewrite (BloomProcess_outside_section false
             (Mem.bloomWorld false Mem.emptyDatabase) (MemRuns.headerOf 36863));
    [reflexivity | repeat split | vm_compute; discriminate].
Defined.

Lemma bloomProcessAll_records_heads_witness :
  exists heads' : list Hash,
    bloomProcessAll (MemRuns.headersFrom 0 4096)
      (Mem.bloomWorld false Mem.emptyDatabase) =
      (Ret tt,
       mkWorld
         (BloomTrieIndexerBackend.mk
            (BloomTrieIndexerBackend.triedb
               (backend (Mem.bloomWorld false Mem.emptyDatabase)))
            (BloomTrieIndexerBackend.section
               (backend (Mem.bloomWorld false Mem.emptyDatabase)))
            (BloomTrieIndexerBackend.parentSectionSize
               (backend (Mem.bloomWorld false Mem.emptyDatabase)))
            (BloomTrieIndexerBackend.bloomTrieRatio
               (backend (Mem.bloomWorld false Mem.emptyDatabase)))
            (BloomTrieIndexerBackend.trie
               (backend (Mem.bloomWorld false Mem.emptyDatabase)))
            heads')
         (diskdb (Mem.bloomWorld false Mem.emptyDatabase))
         (logs (Mem.bloomWorld false Mem.emptyDatabase)))
    /\ heads' !! 0%nat = Some (Mem.hash (MemRuns.headerOf 4095))
    /\ heads' !! 1%nat = Some zeroHash.
Proof.
  destruct (bloomProcessAll_records_heads false
              (Mem.bloomWorld false Mem.emptyDatabase)
              (MemRuns.headersFrom 0 4096))
    as (heads' & Hrun & _ & Hget).
  - repeat split.
  - reflexivity.
  - vm_compute. discriminate.
  - rewrite length_headersFrom; vm_compute; discriminate.
  - apply numberedFrom_headersFrom.
  - exists heads'. split; [exact Hrun|].
    pose proof (Hget 0%nat) as H0. pose proof (Hget 1%nat) as H1.
    rewrite length_headersFrom in H0, H1 by (vm_compute; discriminate).
    split; [|exact H1].
    change (heads' !! 0%nat
            = Header_Hash <$> (MemRuns.headerOf <$> seqZ 0 4096) !! 4095%nat)
      in H0.
    rewrite list_lookup_fmap, lookup_seqZ_lt in H0 by (vm_compute; reflexivity).
    exact H0.
Defined.

Lemma bloomCycle_full_section_forgets_slots_witness :
  bloomCycle 0 zeroHash (MemRuns.headersFrom 0 32768)
    (Mem.bloomWorld false Mem.emptyDatabase)
  = bloomCycle 0 zeroHash (MemRuns.headersFrom 0 32768) MemRuns.bloomStaleWorld.
Proof.
  apply (bloomCycle_full_section_forgets_slots false).
  - repeat split.
  - repeat split.
  - reflexivity.
  - reflexivity.
  - reflexivity.
  - reflexivity.
  - vm_compute. discriminate.
  - apply length_headersFrom. vm_compute. discriminate.
  - apply numberedFrom_headersFrom.
  - vm_compute. reflexivity.
Defined.

Lemma ChtCommit_reports_only_trie_error_witness :
  (ChtIndexerBackend.Commit (Mem.chtOpenWorld Mem.brokenDatabase)).1 = Ret tt.
Proof.
  destruct (ChtCommit_reports_only_trie_error
              (Mem.chtOpenWorld Mem.brokenDatabase) ∅ eq_refl) as [H1 _].
  exact H1.
Defined.

Lemma BloomCommit_stores_root_witness :
  exists head : Hash,
    last (BloomTrieIndexerBackend.sectionHeads
            (backend (Mem.bloomOpenWorld true Mem.bloomBitsDatabase)))
    = Some head
    /\ (BloomTrieIndexerBackend.Commit
          (Mem.bloomOpenWorld true Mem.bloomBitsDatabase)).1 = Ret tt
    /\ GetBloomTrieRoot
         (diskdb (BloomTrieIndexerBackend.Commit
                    (Mem.bloomOpenWorld true Mem.bloomBitsDatabase)).2)
         0 head
       = Mem.testRoot
           (bitSteps (backend (Mem.bloomOpenWorld true Mem.bloomBitsDatabase))
              Mem.bloomBitsDatabase ∅ (seqZ 0 BloomBitLength)).
Proof.
  destruct (BloomCommit_stores_root true
              (Mem.bloomOpenWorld true Mem.bloomBitsDatabase) ∅)
    as (head & Hhead & Hret & _ & _ & Hget).
  - repeat split.
  - reflexivity.
  - apply bloomBitsDatabase_readsOK.
  - reflexivity.
  - exists head. split; [exact Hhead|]. split; [exact Hret|].
    apply Hget. reflexivity.
Defined.

End RunExamples.
